(** * neural-forge: the three generator panels and their timers

    A shallow embedding of [IdeaGenerator], [ResearchPanel] and
    [CodingPanel] (React function components) together with the part of
    the JavaScript runtime they rely on: strings, [Math.random],
    [Array.prototype.sort]/[slice], and the browser's timer queue.

    Conventions
    - a JS string is its sequence of UTF-16 code units ([list N]);
    - a call of [Math.random()] reads the next element of a sequence of
      rationals (the draws), threaded through a small state monad;
    - [undefined]/[null] are [None];
    - a component instance owns its state; the timer queue belongs to the
      page and survives the instance;
    - the setter calls of one handler or callback are applied together
      (React batches them), so each handler and callback is a function
      from state to state. *)

From Stdlib Require Import ZArith QArith Qround Qpower String Ascii Lia Lqa.
From stdpp Require Import base option list gmap relations.

Close Scope Q_scope.
Open Scope Z_scope.

(** ** JavaScript runtime *)

Module Js.

(** Strings as UTF-16 code units. *)
Definition jsstring := list N.

(** An ASCII literal. *)
Definition str (s : string) : jsstring :=
  N_of_ascii <$> list_ascii_of_string s.

(** ECMAScript [WhiteSpace] and [LineTerminator] code points: the ones
    [String.prototype.trim] strips. *)
Definition whiteSpace : list N :=
  [ 9; 10; 11; 12; 13; 32; 160; 5760;
    8192; 8193; 8194; 8195; 8196; 8197; 8198; 8199; 8200; 8201; 8202;
    8232; 8233; 8239; 8287; 12288; 65279 ]%N.

Definition isWhiteSpace (c : N) : bool := bool_decide (c ∈ whiteSpace).

Fixpoint trimStart (s : jsstring) : jsstring :=
  match s with
  | c :: s' => if isWhiteSpace c then trimStart s' else s
  | [] => []
  end.

Definition trimEnd (s : jsstring) : jsstring :=
  reverse (trimStart (reverse s)).

Definition trim (s : jsstring) : jsstring := trimEnd (trimStart s).

(** The double quote, and lines joined by line feeds (the way the
    multi-line template literals of the source are written below). *)
Definition quot : jsstring := [34%N].

Fixpoint unlines (ls : list jsstring) : jsstring :=
  match ls with
  | [] => []
  | [l] => l
  | l :: ls' => l ++ 10%N :: unlines ls'
  end.

(** [ToBoolean] on a string: only the empty string is falsy. *)
Definition truthy (s : jsstring) : bool :=
  match s with [] => false | _ => true end.

(** [String(v)] for a value of type [string | undefined], as a template
    literal does it. *)
Definition toString (v : option jsstring) : jsstring :=
  match v with Some s => s | None => str "undefined" end.

(** A string made of white space only (the empty one included). *)
Definition blank (s : jsstring) : Prop := Forall (λ c, isWhiteSpace c = true) s.

(** *** Random draws

    [Rand A] is a computation that may call [Math.random()]: it reads
    the sequence of draws from a position and returns the next one.
    Draws are rationals.  The index [Math.floor(Math.random() * n)] and
    the sign of [Math.random() - 0.5] are computed exactly: what is
    proved below depends on them only through the range of the index
    and through the sort rearranging its input.  The delays handed to
    [setTimeout] are computed in number arithmetic ([Number_add],
    [Number_mul] below), where the rounding of the sum matters. *)
Definition Rand (A : Type) : Type := (nat → Q) → nat → A * nat.

Definition ret {A} (a : A) : Rand A := λ _ n, (a, n).

Definition bind {A B} (m : Rand A) (k : A → Rand B) : Rand B :=
  λ rnd n, let '(a, n') := m rnd n in k a rnd n'.

#[export] Instance rand_ret : MRet Rand := @ret.
#[export] Instance rand_bind : MBind Rand := λ A B k m, bind m k.

Definition Math_random : Rand Q := λ rnd n, (rnd n, S n).

Definition run {A} (m : Rand A) (rnd : nat → Q) : A := (m rnd 0%nat).1.

Definition Math_floor (x : Q) : Z := Qfloor x.

(** *** Number arithmetic

    A JS number is a binary64 float.  [binary64 x] is the float nearest
    to the rational [x], ties going to the even significand; below
    2^-1022 the spacing is that of the subnormals.  Overflow to
    [Infinity] is not represented: the sums and products rounded here
    stay below 2^11. *)

(** The exponent of the power of two at or below a positive [x]. *)
Definition binade (x : Q) : Z :=
  let e := Z.log2 (Qnum x) - Z.log2 (Z.pos (Qden x)) in
  if Qle_bool (2 ^ e)%Q x then e else e - 1.

(** The integer nearest to [x], the even one on a tie. *)
Definition roundEven (x : Q) : Z :=
  let f := Qfloor x in
  match (x - inject_Z f ?= 1 # 2)%Q with
  | Lt => f
  | Gt => f + 1
  | Eq => if Z.even f then f else f + 1
  end.

(** The distance between neighbouring floats around a positive [x]. *)
Definition ulp (x : Q) : Q := (2 ^ (Z.max (binade x) (-1022) - 52))%Q.

Definition binary64 (x : Q) : Q :=
  match (0 ?= x)%Q with
  | Eq => 0%Q
  | Lt => (inject_Z (roundEven (x / ulp x)) * ulp x)%Q
  | Gt => (- (inject_Z (roundEven (- x / ulp (- x))) * ulp (- x)))%Q
  end.

(** [x + y] and [x * y] on numbers. *)
Definition Number_add (x y : Q) : Q := binary64 (x + y)%Q.
Definition Number_mul (x y : Q) : Q := binary64 (x * y)%Q.

(** What [Math.random] promises: every draw is in [0, 1). *)
Definition unitDraws (rnd : nat → Q) : Prop :=
  ∀ i, (0 <= rnd i)%Q ∧ (rnd i < 1)%Q.

(** [a[i]] for an integral index; out of range is [undefined]. *)
Definition index {A} (a : list A) (i : Z) : option A :=
  if decide (0 ≤ i) then a !! Z.to_nat i else None.

(** [a.slice(0, e)] for an integral [e]. *)
Definition slice0 {A} (a : list A) (e : Z) : list A :=
  let len := Z.of_nat (length a) in
  let final := if decide (e < 0) then Z.max (len + e) 0 else Z.min e len in
  take (Z.to_nat final) a.

(** *** [Array.prototype.sort] with a comparator

    The engine's sort is not part of the repository, and ECMAScript
    leaves the order it produces for an inconsistent comparator to the
    implementation.  It is modelled as an insertion sort: each element
    is moved left past its predecessors while
    [comparefn(pred, elt) > 0].  The comparator may draw random numbers,
    so sorting is a [Rand] computation.  The accumulator holds the
    sorted prefix, last element first.  The properties below use one
    fact about the sort only: it rearranges the array
    ([Array_sort_perm]). *)
Section Sort.
Context {A : Type}.
Variable comparefn : A → A → Rand Q.

Fixpoint insertLeft (element : A) (prefix : list A) : Rand (list A) :=
  match prefix with
  | [] => mret [element]
  | tmp :: rest =>
      order ← comparefn tmp element;
      if Qlt_le_dec 0 order
      then rest' ← insertLeft element rest; mret (tmp :: rest')
      else mret (element :: tmp :: rest)
  end.

Fixpoint sortFrom (prefix : list A) (todo : list A) : Rand (list A) :=
  match todo with
  | [] => mret (reverse prefix)
  | element :: todo' =>
      prefix' ← insertLeft element prefix; sortFrom prefix' todo'
  end.

Definition Array_sort (a : list A) : Rand (list A) := sortFrom [] a.
End Sort.

End Js.

Import Js.

(** ** The page: component instances and the timer queue

    [App] renders a panel only while its tab is active, so switching
    tabs unmounts the panel and discards its state; coming back mounts a
    fresh instance.  Timers registered with [setTimeout] live in the
    browser and are not tied to the instance that registered them.  None
    of the panels keeps a timer handle, calls [clearTimeout] or installs
    an effect clean-up, so [unmount] below leaves the queue alone.  A
    callback that runs for an instance that is gone calls setters of a
    discarded component, which React ignores. *)

Module React.

(** What a handler or callback reads from outside the component. *)
Record Env := mkEnv {
  random : nat → Q;     (* successive results of Math.random() *)
  dateNow : Z;          (* Date.now() *)
  newDate : Z           (* new Date(), in ms *)
}.

Section Host.
Context {State Closure : Type}.

(** State of a freshly mounted instance ([useState] initial values). *)
Variable initial : State.

(** Body of a timer callback: [None] when it throws before calling any
    setter. *)
Variable callback : Closure → Env → State → option State.

Record Timer := mkTimer {
  owner : nat;          (* the instance whose setters the closure holds *)
  delay : Q;            (* milliseconds *)
  closure : Closure
}.

Record World := mkWorld {
  instance : nat;            (* number of instances mounted so far *)
  panel : option State;      (* [None]: the panel is not mounted *)
  timers : list Timer        (* pending [setTimeout] callbacks *)
}.

Definition start : World := mkWorld 0%nat None [].

Definition mount (w : World) : World :=
  mkWorld (S (instance w)) (Some initial) (timers w).

Definition unmount (w : World) : World :=
  mkWorld (instance w) None (timers w).

(** An event handler of the mounted instance: it computes the next
    state and the timers it registers. *)
Definition dispatch (handler : State → State * list (Q * Closure))
    (w : World) : World :=
  match panel w with
  | None => w
  | Some s =>
      let '(s', ts) := handler s in
      mkWorld (instance w) (Some s')
        (timers w ++ ((λ t, mkTimer (instance w) t.1 t.2) <$> ts))
  end.

(** The [i]-th pending timer expires and its callback runs. *)
Definition fire (i : nat) (env : Env) (w : World) : World :=
  match timers w !! i with
  | None => w
  | Some t =>
      let pending := delete i (timers w) in
      match panel w with
      | Some s =>
          if decide (owner t = instance w)
          then match callback (closure t) env s with
               | Some s' => mkWorld (instance w) (Some s') pending
               | None => mkWorld (instance w) (Some s) pending
               end
          else mkWorld (instance w) (Some s) pending
      | None => mkWorld (instance w) None pending
      end
  end.

(** The timer registered last expires. *)
Definition settle (env : Env) (w : World) : World :=
  fire (pred (length (timers w))) env w.

End Host.

Arguments Timer : clear implicits.
Arguments World : clear implicits.

End React.

(** ** ResearchPanel.tsx *)

Module Research.

Record ResearchResult := mkResult {
  id : Z;
  title : jsstring;
  summary : jsstring;
  source : jsstring;
  relevance : Z;
  category : jsstring
}.

#[export] Instance ResearchResult_eq_dec : EqDecision ResearchResult.
Proof. solve_decision. Defined.

Definition mockResearchResults : list ResearchResult := [
  mkResult 1
    (str "Neural Networks and Creative Problem Solving")
    (str "Recent studies show that neural networks can assist in generating novel solutions by identifying patterns in large datasets that humans might overlook.")
    (str "AI Research Journal") 95 (str "AI/ML");
  mkResult 2
    (str "Market Trends in Sustainable Technology")
    (str "The sustainable tech market is projected to grow by 25% annually, with particular demand in energy storage and green computing solutions.")
    (str "Tech Market Analysis") 87 (str "MARKET");
  mkResult 3
    (str "User Experience in Idea Generation Tools")
    (str "Research indicates that tools with gamification elements increase user engagement and the quality of generated ideas by up to 40%.")
    (str "UX Research Quarterly") 82 (str "UX");
  mkResult 4
    (str "Collaborative Innovation Frameworks")
    (str "Open innovation frameworks that combine internal R&D with external idea sourcing show 3x higher success rates for breakthrough innovations.")
    (str "Innovation Management") 79 (str "STRATEGY");
  mkResult 5
    (str "Patent Landscape Analysis: AI-Generated Content")
    (str "The patent landscape for AI-generated content tools shows rapid growth, with 500+ patents filed in the last quarter alone.")
    (str "Patent Analytics DB") 74 (str "LEGAL")
].

(** The four [useState] cells of the component. *)
Record State := mkState {
  query : jsstring;
  isSearching : bool;
  results : list ResearchResult;
  expandedResult : option Z
}.

Definition initial : State := mkState [] false [] None.

Definition setQuery (q : jsstring) (s : State) : State :=
  mkState q (isSearching s) (results s) (expandedResult s).
Definition setIsSearching (b : bool) (s : State) : State :=
  mkState (query s) b (results s) (expandedResult s).
Definition setResults (r : list ResearchResult) (s : State) : State :=
  mkState (query s) (isSearching s) r (expandedResult s).
Definition setExpandedResult (e : option Z) (s : State) : State :=
  mkState (query s) (isSearching s) (results s) e.

(** The only callback the panel registers: the body of the
    [setTimeout] in [performSearch].  It captures nothing but setters. *)
Inductive Closure := SearchDone.

(** [() => Math.random() - 0.5] *)
Definition randomOrder (_ _ : ResearchResult) : Rand Q :=
  r ← Math_random; mret (r - (1 # 2))%Q.

(** [[...mockResearchResults].sort(...).slice(0, 3 + Math.floor(Math.random() * 3))] *)
Definition shuffled : Rand (list ResearchResult) :=
  sorted ← Array_sort randomOrder mockResearchResults;
  r ← Math_random;
  mret (slice0 sorted (3 + Math_floor (r * 3)%Q)).

Definition callback (c : Closure) (env : React.Env) (s : State) : option State :=
  match c with
  | SearchDone =>
      let shuffled := run shuffled (React.random env) in
      Some (setIsSearching false (setResults shuffled s))
  end.

Definition performSearch (s : State) : State * list (Q * Closure) :=
  if negb (truthy (trim (query s))) then (s, [])
  else (setResults [] (setIsSearching true s), [(1500%Q, SearchDone)]).

(** [disabled={isSearching || !query.trim()}] on the SEARCH button. *)
Definition searchDisabled (s : State) : bool :=
  isSearching s || negb (truthy (trim (query s))).

(** [onClick] of a result row. *)
Definition toggleExpanded (rid : Z) (s : State) : State * list (Q * Closure) :=
  (setExpandedResult
     (if decide (expandedResult s = Some rid) then None else Some rid) s, []).

Abbreviation World := (React.World State Closure).

Definition fire := React.fire (State := State) callback.
Definition settle := React.settle (State := State) callback.
Definition mount := React.mount (Closure := Closure) initial.

(** What the user and the browser can do to the panel. *)
Inductive step : World → World → Prop :=
| step_mount w :
    React.panel w = None → step w (mount w)
| step_unmount w :
    step w (React.unmount w)
| step_change q w :                                   (* typing in the input *)
    step w (React.dispatch (λ s, (setQuery q s, [])) w)
| step_click w s :                                    (* SEARCH button *)
    React.panel w = Some s → searchDisabled s = false →
    step w (React.dispatch performSearch w)
| step_enter w :                                      (* Enter in the input *)
    step w (React.dispatch performSearch w)
| step_expand rid w :
    step w (React.dispatch (toggleExpanded rid) w)
| step_timer i env w :
    step w (fire i env w).

Definition reachable (w : World) : Prop := rtc step React.start w.

End Research.

(** ** IdeaGenerator.tsx *)

Module Idea.

Record IdeaCategory := mkCategory {
  cat_id : jsstring; label : jsstring; icon : jsstring
}.

Definition ideaCategories : list IdeaCategory := [
  mkCategory (str "tech") (str "TECHNOLOGY") (str ">");
  mkCategory (str "business") (str "BUSINESS") (str "$");
  mkCategory (str "creative") (str "CREATIVE") (str "*");
  mkCategory (str "science") (str "SCIENCE") (str "%");
  mkCategory (str "social") (str "SOCIAL") (str "@")
].

(** The Template Store of the idea panel. *)
Definition ideaTemplates : gmap jsstring (list jsstring) :=
  list_to_map [
    (str "tech", [
       str "An AI-powered tool that automatically generates documentation from code comments";
       str "A browser extension that summarizes any webpage into key bullet points";
       str "A smart home system that learns your habits and optimizes energy usage";
       str "A decentralized file storage network using blockchain technology";
       str "An AR app that overlays repair instructions on broken appliances";
       str "A machine learning model that predicts software bugs before deployment";
       str "A voice-controlled coding assistant for hands-free development";
       str "A quantum computing simulator for educational purposes"
     ]);
    (str "business", [
       str "A subscription service for personalized vitamin packs based on DNA analysis";
       str "An AI matchmaker for co-founders seeking business partners";
       str "A platform connecting retired experts with startups needing mentorship";
       str "A marketplace for renting out unused computing power";
       str "A reverse auction platform where businesses bid for customer attention";
       str "An automated bookkeeping service using receipt scanning and AI";
       str "A B2B bartering platform for exchanging services without currency";
       str "A fractional ownership platform for commercial real estate"
     ]);
    (str "creative", [
       str "A collaborative music composition app where users build songs together";
       str "An AI that generates unique fonts based on your handwriting";
       str "A virtual reality museum where anyone can exhibit their art";
       str "A procedural poetry generator that creates verses from daily news";
       str "An app that transforms voice memos into illustrated storybooks";
       str "A platform for commissioning custom soundtracks for your life events";
       str "A tool that generates color palettes from any piece of music";
       str "An AI filmmaker that creates short films from text descriptions"
     ]);
    (str "science", [
       str "A citizen science app for cataloging local biodiversity through photos";
       str "A simulation platform for testing theoretical physics experiments";
       str "An AI assistant for analyzing astronomical data from amateur telescopes";
       str "A molecular modeling tool for high school chemistry education";
       str "A crowdsourced climate monitoring network using smartphone sensors";
       str "A genetic ancestry visualization tool using 3D family trees";
       str "An ocean exploration simulator based on real oceanographic data";
       str "A neural network that predicts protein folding structures"
     ]);
    (str "social", [
       str "A platform connecting neighbors to share tools and equipment";
       str "An app that organizes local skill-sharing workshops";
       str "A service matching volunteers with elderly residents needing assistance";
       str "A community garden management platform with plot allocation";
       str "A local event discovery app based on your interests and schedule";
       str "A carpooling network specifically for parents doing school runs";
       str "A platform for organizing neighborhood watch programs";
       str "An app connecting pet owners for mutual pet-sitting arrangements"
     ])
  ].

(** [text] is typed [string]; at run time an index outside the list
    would leave it [undefined], which is [None] here. *)
Record GeneratedIdea := mkIdea {
  id : Z;
  text : option jsstring;
  category : jsstring;
  timestamp : Z;
  saved : bool
}.

#[export] Instance GeneratedIdea_eq_dec : EqDecision GeneratedIdea.
Proof. solve_decision. Defined.

Record State := mkState {
  selectedCategory : jsstring;
  ideas : list GeneratedIdea;
  isGenerating : bool;
  customPrompt : jsstring
}.

Definition initial : State := mkState (str "tech") [] false [].

Definition setSelectedCategory (c : jsstring) (s : State) : State :=
  mkState c (ideas s) (isGenerating s) (customPrompt s).
Definition setIdeas (f : list GeneratedIdea → list GeneratedIdea) (s : State) : State :=
  mkState (selectedCategory s) (f (ideas s)) (isGenerating s) (customPrompt s).
Definition setIsGenerating (b : bool) (s : State) : State :=
  mkState (selectedCategory s) (ideas s) b (customPrompt s).
Definition setCustomPrompt (p : jsstring) (s : State) : State :=
  mkState (selectedCategory s) (ideas s) (isGenerating s) p.

(** The callback of [generateIdea] closes over the category and the
    context of the render in which the button was pressed. *)
Inductive Closure := IdeaReady (selectedCategory customPrompt : jsstring).

(** The template literal of [generateIdea]; the dash is U+2014. *)
Definition customized (randomIdea : option jsstring) (customPrompt : jsstring) : jsstring :=
  toString randomIdea ++ str " " ++ [8212%N] ++ str " customized for: "
    ++ quot ++ customPrompt ++ quot.

Definition callback (c : Closure) (env : React.Env) (s : State) : option State :=
  match c with
  | IdeaReady selectedCategory customPrompt =>
      (* [categoryIdeas.length] throws when the key is missing; the
         selector only ever holds a key of the store, see
         [reachable_categories] *)
      categoryIdeas ← ideaTemplates !! selectedCategory;
      let r := run Math_random (React.random env) in
      let randomIdea :=
        index categoryIdeas
          (Math_floor (r * inject_Z (Z.of_nat (length categoryIdeas)))%Q) in
      let newIdea :=
        mkIdea (React.dateNow env)
          (if truthy customPrompt
           then Some (customized randomIdea customPrompt)
           else randomIdea)
          selectedCategory
          (React.newDate env)
          false in
      Some (setIsGenerating false (setIdeas (λ prev, newIdea :: prev) s))
  end.

Definition generateIdea (env : React.Env) (s : State) : State * list (Q * Closure) :=
  let r := run Math_random (React.random env) in
  (setIsGenerating true s,
   [(Number_add 800 (Number_mul r 700),
     IdeaReady (selectedCategory s) (customPrompt s))]).

Definition toggleSaved (i : Z) (s : State) : State :=
  setIdeas (λ prev,
    (λ idea, if decide (id idea = i)
             then mkIdea (id idea) (text idea) (category idea)
                    (timestamp idea) (negb (saved idea))
             else idea) <$> prev) s.

Definition deleteIdea (i : Z) (s : State) : State :=
  setIdeas (λ prev, filter (λ idea, id idea ≠ i) prev) s.

(** [onClick={() => setIdeas([])}] of CLEAR_ALL. *)
Definition clearAll (s : State) : State := setIdeas (λ _, []) s.

Abbreviation World := (React.World State Closure).

Definition fire := React.fire (State := State) callback.
Definition settle := React.settle (State := State) callback.
Definition mount := React.mount (Closure := Closure) initial.

(** What the user and the browser can do to the panel.  The category
    buttons are those of [ideaCategories]; the generate button is
    disabled while generating; CLEAR_ALL is rendered for a non-empty
    log. *)
Inductive step : World → World → Prop :=
| step_mount w :
    React.panel w = None → step w (mount w)
| step_unmount w :
    step w (React.unmount w)
| step_category c w :
    c ∈ ideaCategories →
    step w (React.dispatch (λ s, (setSelectedCategory (cat_id c) s, [])) w)
| step_context p w :
    step w (React.dispatch (λ s, (setCustomPrompt p s, [])) w)
| step_generate env w s :
    React.panel w = Some s → isGenerating s = false →
    step w (React.dispatch (generateIdea env) w)
| step_toggle i w :
    step w (React.dispatch (λ s, (toggleSaved i s, [])) w)
| step_delete i w :
    step w (React.dispatch (λ s, (deleteIdea i s, [])) w)
| step_clear w s :
    React.panel w = Some s → ideas s ≠ [] →
    step w (React.dispatch (λ s, (clearAll s, [])) w)
| step_timer i env w :
    step w (fire i env w).

Definition reachable (w : World) : Prop := rtc step React.start w.

(** The category selector, and the category captured by every pending
    callback, is a key of the Template Store. *)
Definition categories_in_store (w : World) : Prop :=
  (∀ s, React.panel w = Some s → is_Some (ideaTemplates !! selectedCategory s))
  ∧ (∀ t k p, t ∈ React.timers w → React.closure t = IdeaReady k p →
              is_Some (ideaTemplates !! k)).

End Idea.

(** ** CodingPanel.tsx *)

Module Coding.

Record CodeSnippet := mkSnippet {
  id : Z;
  language : jsstring;
  title : jsstring;
  code : jsstring;
  description : jsstring
}.

#[export] Instance CodeSnippet_eq_dec : EqDecision CodeSnippet.
Proof. solve_decision. Defined.

Definition code1 : jsstring := unlines [
  str "import { useState, useEffect } from 'react';";
  [];
  str "function useLocalStorage<T>(key: string, initialValue: T) {";
  str "  const [storedValue, setStoredValue] = useState<T>(() => {";
  str "    try {";
  str "      const item = window.localStorage.getItem(key);";
  str "      return item ? JSON.parse(item) : initialValue;";
  str "    } catch (error) {";
  str "      return initialValue;";
  str "    }";
  str "  });";
  [];
  str "  useEffect(() => {";
  str "    window.localStorage.setItem(key, JSON.stringify(storedValue));";
  str "  }, [key, storedValue]);";
  [];
  str "  return [storedValue, setStoredValue] as const;";
  str "}"
].

Definition snippet1 : CodeSnippet :=
  mkSnippet 1 (str "tsx")
    (str "Custom Hook: useLocalStorage")
    code1
    (str "A type-safe custom hook for persisting state to localStorage").

Definition code2 : jsstring := unlines [
  str "import { useState, useEffect, useCallback } from 'react';";
  [];
  str "function DebouncedSearch({ onSearch }: { onSearch: (q: string) => void }) {";
  str "  const [query, setQuery] = useState('');";
  [];
  str "  const debouncedSearch = useCallback(";
  str "    debounce((q: string) => onSearch(q), 300),";
  str "    [onSearch]";
  str "  );";
  [];
  str "  useEffect(() => {";
  str "    debouncedSearch(query);";
  str "  }, [query, debouncedSearch]);";
  [];
  str "  return (";
  str "    <input";
  str "      value={query}";
  str "      onChange={(e) => setQuery(e.target.value)}";
  str "      placeholder=" ++ quot ++ str "Search..." ++ quot;
  str "    />";
  str "  );";
  str "}"
].

Definition snippet2 : CodeSnippet :=
  mkSnippet 2 (str "tsx")
    (str "Debounced Search Component")
    code2
    (str "A search input component with built-in debouncing").

Definition code3 : jsstring := unlines [
  str "import asyncio";
  str "import aiohttp";
  str "from typing import List, Dict, Any";
  [];
  str "async def fetch_all(urls: List[str]) -> List[Dict[str, Any]]:";
  str "    async with aiohttp.ClientSession() as session:";
  str "        tasks = [fetch_one(session, url) for url in urls]";
  str "        return await asyncio.gather(" ++ str "*tasks)";
  [];
  str "async def fetch_one(session: aiohttp.ClientSession, url: str):";
  str "    async with session.get(url) as response:";
  str "        return await response.json()";
  [];
  str "# Usage: asyncio.run(fetch_all(['url1', 'url2']))"
].

Definition snippet3 : CodeSnippet :=
  mkSnippet 3 (str "python")
    (str "Async Data Fetcher")
    code3
    (str "Concurrent HTTP requests using asyncio and aiohttp").

Definition code4 : jsstring := unlines [
  str "import functools";
  str "import time";
  str "from typing import Callable, TypeVar";
  [];
  str "T = TypeVar('T')";
  [];
  str "def retry(max_attempts: int = 3, backoff: float = 1.0):";
  str "    def decorator(func: Callable[..., T]) -> Callable[..., T]:";
  str "        @functools.wraps(func)";
  str "        def wrapper(" ++ str "*args, **kwargs) -> T:";
  str "            for attempt in range(max_attempts):";
  str "                try:";
  str "                    return func(" ++ str "*args, **kwargs)";
  str "                except Exception as e:";
  str "                    if attempt == max_attempts - 1:";
  str "                        raise";
  str "                    time.sleep(backoff * (2 ** attempt))";
  str "            raise RuntimeError(" ++ quot ++ str "Unreachable" ++ quot ++ str ")";
  str "        return wrapper";
  str "    return decorator"
].

Definition snippet4 : CodeSnippet :=
  mkSnippet 4 (str "python")
    (str "Decorator: Retry with Backoff")
    code4
    (str "A decorator for automatic retry with exponential backoff").

Definition code5 : jsstring := unlines [
  str "class APIClient {";
  str "  private baseURL: string;";
  str "  private headers: HeadersInit;";
  [];
  str "  constructor(baseURL: string, apiKey?: string) {";
  str "    this.baseURL = baseURL;";
  str "    this.headers = {";
  str "      'Content-Type': 'application/json',";
  str "      ...(apiKey && { 'Authorization': `Bearer ${apiKey}` }),";
  str "    };";
  str "  }";
  [];
  str "  async get<T>(endpoint: string): Promise<T> {";
  str "    const res = await fetch(`${this.baseURL}${endpoint}`, {";
  str "      headers: this.headers,";
  str "    });";
  str "    if (!res.ok) throw new Error(res.statusText);";
  str "    return res.json();";
  str "  }";
  [];
  str "  async post<T>(endpoint: string, data: unknown): Promise<T> {";
  str "    const res = await fetch(`${this.baseURL}${endpoint}`, {";
  str "      method: 'POST',";
  str "      headers: this.headers,";
  str "      body: JSON.stringify(data),";
  str "    });";
  str "    if (!res.ok) throw new Error(res.statusText);";
  str "    return res.json();";
  str "  }";
  str "}"
].

Definition snippet5 : CodeSnippet :=
  mkSnippet 5 (str "typescript")
    (str "REST API Client Class")
    code5
    (str "A reusable typed API client for REST endpoints").

Definition code6 : jsstring := unlines [
  str "class RateLimiter {";
  str "  private tokens: number;";
  str "  private lastRefill: number;";
  str "  private readonly maxTokens: number;";
  str "  private readonly refillRate: number; // tokens per second";
  [];
  str "  constructor(maxTokens: number, refillRate: number) {";
  str "    this.maxTokens = maxTokens;";
  str "    this.tokens = maxTokens;";
  str "    this.refillRate = refillRate;";
  str "    this.lastRefill = Date.now();";
  str "  }";
  [];
  str "  async acquire(): Promise<void> {";
  str "    this.refill();";
  str "    if (this.tokens < 1) {";
  str "      const waitTime = (1 / this.refillRate) * 1000;";
  str "      await new Promise(r => setTimeout(r, waitTime));";
  str "      return this.acquire();";
  str "    }";
  str "    this.tokens--;";
  str "  }";
  [];
  str "  private refill(): void {";
  str "    const now = Date.now();";
  str "    const elapsed = (now - this.lastRefill) / 1000;";
  str "    this.tokens = Math.min(this.maxTokens,";
  str "      this.tokens + elapsed * this.refillRate);";
  str "    this.lastRefill = now;";
  str "  }";
  str "}"
].

Definition snippet6 : CodeSnippet :=
  mkSnippet 6 (str "typescript")
    (str "Rate Limiter Utility")
    code6
    (str "Token bucket rate limiter for API calls").

Definition codeTemplates : gmap jsstring (list CodeSnippet) :=
  list_to_map [
    (str "react", [snippet1; snippet2]);
    (str "python", [snippet3; snippet4]);
    (str "api", [snippet5; snippet6])
  ].

Record LanguageOption := mkLanguage {
  lang_id : jsstring; label : jsstring; icon : jsstring
}.

Definition languageOptions : list LanguageOption := [
  mkLanguage (str "react") (str "REACT/TS") (str "<>");
  mkLanguage (str "python") (str "PYTHON") (str "#!");
  mkLanguage (str "api") (str "API_UTILS") (str "{}")
].

(** [generatedCode] has type [CodeSnippet | null]: a single cell, not a
    list. *)
Record State := mkState {
  selectedLanguage : jsstring;
  generatedCode : option CodeSnippet;
  isGenerating : bool;
  copied : bool;
  customPrompt : jsstring
}.

Definition initial : State := mkState (str "react") None false false [].

Definition setSelectedLanguage (l : jsstring) (s : State) : State :=
  mkState l (generatedCode s) (isGenerating s) (copied s) (customPrompt s).
Definition setGeneratedCode (c : option CodeSnippet) (s : State) : State :=
  mkState (selectedLanguage s) c (isGenerating s) (copied s) (customPrompt s).
Definition setIsGenerating (b : bool) (s : State) : State :=
  mkState (selectedLanguage s) (generatedCode s) b (copied s) (customPrompt s).
Definition setCopied (b : bool) (s : State) : State :=
  mkState (selectedLanguage s) (generatedCode s) (isGenerating s) b (customPrompt s).
Definition setCustomPrompt (p : jsstring) (s : State) : State :=
  mkState (selectedLanguage s) (generatedCode s) (isGenerating s) (copied s) p.

(** Two callbacks are registered: the one of [generateCode], closing
    over the language of the render, and the one of [copyToClipboard]. *)
Inductive Closure :=
| CodeReady (selectedLanguage : jsstring)
| CopiedReset.

Definition callback (c : Closure) (env : React.Env) (s : State) : option State :=
  match c with
  | CodeReady selectedLanguage =>
      (* [templates.length] throws when the key is missing; the
         selector only ever holds a key of the store, see
         [reachable_language] *)
      templates ← codeTemplates !! selectedLanguage;
      let r := run Math_random (React.random env) in
      let randomCode :=
        index templates
          (Math_floor (r * inject_Z (Z.of_nat (length templates)))%Q) in
      Some (setIsGenerating false (setGeneratedCode randomCode s))
  | CopiedReset => Some (setCopied false s)
  end.

(** A handler is a closure of the render that created it: it reads the
    state variables of that render and calls the setters on the state
    of the moment.  For a button React has just re-rendered the two
    states are the same.  The snippet card sits inside [AnimatePresence],
    which keeps the card of an earlier render on screen while it leaves;
    its REGENERATE and COPY have no [disabled] attribute and then run
    with the variables of that earlier render. *)

(** [generateCode] as created by the render of state [render]. *)
Definition generateCodeOf (env : React.Env) (render s : State)
    : State * list (Q * Closure) :=
  let r := run Math_random (React.random env) in
  (setGeneratedCode None (setIsGenerating true s),
   [(Number_add 1000 (Number_mul r 500), CodeReady (selectedLanguage render))]).

(** [generateCode] of the current render. *)
Definition generateCode (env : React.Env) (s : State) : State * list (Q * Closure) :=
  generateCodeOf env s s.

(** [copyToClipboard] as created by the render of state [render]:
    [if (generatedCode)] tests the snippet of that render. *)
Definition copyToClipboardOf (render s : State) : State * list (Q * Closure) :=
  match generatedCode render with
  | Some _ => (setCopied true s, [(2000%Q, CopiedReset)])
  | None => (s, [])
  end.

(** [copyToClipboard] of the current render. *)
Definition copyToClipboard (s : State) : State * list (Q * Closure) :=
  copyToClipboardOf s s.

(** A render that shows the snippet card ([!isGenerating && generatedCode]):
    the language selector holds one of the options and the snippet is
    one of the store.  The step relation below does not record which
    renders took place; it lets a leaving card come from any such
    state, which admits every click the UI allows (and more). *)
Definition showsCard (render : State) : Prop :=
  isGenerating render = false
  ∧ (∃ l, l ∈ languageOptions ∧ selectedLanguage render = lang_id l)
  ∧ ∃ c k ts, generatedCode render = Some c
              ∧ codeTemplates !! k = Some ts ∧ c ∈ ts.

(** The snippets the read model shows. *)
Definition snippets (s : State) : list CodeSnippet :=
  match generatedCode s with Some c => [c] | None => [] end.

Abbreviation World := (React.World State Closure).

Definition fire := React.fire (State := State) callback.
Definition settle := React.settle (State := State) callback.
Definition mount := React.mount (Closure := Closure) initial.

(** What the user and the browser can do to the panel.  The GENERATE
    button is disabled while generating; REGENERATE and COPY are
    rendered next to a snippet that is shown ([step_generate],
    [step_copy]), and stay clickable on a card that is leaving, with
    the closures of the render that built it ([step_card_regenerate],
    [step_card_copy]). *)
Inductive step : World → World → Prop :=
| step_mount w :
    React.panel w = None → step w (mount w)
| step_unmount w :
    step w (React.unmount w)
| step_language l w :
    l ∈ languageOptions →
    step w (React.dispatch (λ s, (setSelectedLanguage (lang_id l) s, [])) w)
| step_context p w :
    step w (React.dispatch (λ s, (setCustomPrompt p s, [])) w)
| step_generate env w s :
    React.panel w = Some s → isGenerating s = false →
    step w (React.dispatch (generateCode env) w)
| step_copy w s :
    React.panel w = Some s → isGenerating s = false →
    step w (React.dispatch copyToClipboard w)
| step_card_regenerate env render w :
    showsCard render →
    step w (React.dispatch (generateCodeOf env render) w)
| step_card_copy render w :
    showsCard render →
    step w (React.dispatch (copyToClipboardOf render) w)
| step_timer i env w :
    step w (fire i env w).

Definition reachable (w : World) : Prop := rtc step React.start w.

End Coding.

(** ** Sample inputs

    Concrete draws, clock readings and worlds on which the statements
    below are exercised. *)

Module Sample.

(** Draws alternating between 1/4 and 3/4. *)
Definition draws : nat → Q := λ i, if Nat.even i then (1 # 4)%Q else (3 # 4)%Q.

Definition env : React.Env := React.mkEnv draws 1700000000000 1700000000000.

(** The research panel after typing a query, and after pressing SEARCH. *)
Definition typed (q : jsstring) : Research.World :=
  React.dispatch (λ s, (Research.setQuery q s, [])) (Research.mount React.start).

Definition searching : Research.World :=
  React.dispatch Research.performSearch (typed (str "ai")).

(** The idea panel with a context typed in, and the code panel likewise. *)
Definition ideaWithContext : Idea.World :=
  React.dispatch (λ s, (Idea.setCustomPrompt (str "for students") s, []))
    (Idea.mount React.start).

Definition codeWithContext : Coding.World :=
  React.dispatch (λ s, (Coding.setCustomPrompt (str "for students") s, []))
    (Coding.mount React.start).

End Sample.

(** ** Pending waits of the mounted instance *)

Module Wait.
Section Live.
Context {State Closure : Type}.
Implicit Type w : React.World State Closure.

(** The pending timers that were registered by the instance mounted now
    and whose closure satisfies [P]: the ones whose callback will act on
    the panel. *)
Definition live (P : Closure → bool) w : list (React.Timer Closure) :=
  filter (λ t, React.owner t = React.instance w ∧ P (React.closure t) = true)
    (React.timers w).

(** No timer belongs to an instance that is yet to be mounted. *)
Definition bounded w : Prop :=
  ∀ t, t ∈ React.timers w → (React.owner t ≤ React.instance w)%nat.

End Live.
End Wait.

(** ** ResearchPanel.tsx: the key handler of the query input *)

Module ResearchKeys.

(** [handleKeyPress]: [if (e.key === 'Enter') performSearch()]. *)
Definition handleKeyPress (key : jsstring) (s : Research.State)
    : Research.State * list (Q * Research.Closure) :=
  if decide (key = str "Enter") then Research.performSearch s else (s, []).

Definition any (_ : Research.Closure) : bool := true.

End ResearchKeys.

(** ** IdeaGenerator.tsx: its waits *)

Module IdeaWaits.

Definition any (_ : Idea.Closure) : bool := true.

End IdeaWaits.

(** ** CodingPanel.tsx: its two kinds of wait, and the clipboard *)

Module CodingWaits.

Definition isCodeReady (c : Coding.Closure) : bool :=
  match c with Coding.CodeReady _ => true | Coding.CopiedReset => false end.

Definition isCopiedReset (c : Coding.Closure) : bool :=
  match c with Coding.CopiedReset => true | Coding.CodeReady _ => false end.

(** The argument of [navigator.clipboard.writeText] in
    [copyToClipboard]; [None] when the handler does not write. *)
Definition writeText (s : Coding.State) : option jsstring :=
  Coding.code <$> Coding.generatedCode s.

End CodingWaits.

(** * Properties *)

(** ** Facts about the runtime model *)

Section JsFacts.

Lemma floor_scale_range (r : Q) (n : Z) :
  (0 <= r)%Q → (r < 1)%Q → 0 < n →
  0 ≤ Math_floor (r * inject_Z n)%Q < n.
Proof.
  intros H0 H1 Hn. unfold Math_floor.
  assert (Hpos : (0 <= inject_Z n)%Q) by (change (inject_Z 0 <= inject_Z n)%Q; rewrite <- Zle_Qle; lia).
  assert (Hlt : (0 < inject_Z n)%Q) by (change (inject_Z 0 < inject_Z n)%Q; rewrite <- Zlt_Qlt; lia).
  split.
  - change 0 with (Qfloor 0). apply Qfloor_resp_le.
    apply Qmult_le_0_compat; assumption.
  - rewrite Zlt_Qlt.
    eapply Qle_lt_trans; [apply Qfloor_le|].
    apply Qlt_le_trans with (1 * inject_Z n)%Q.
    + apply Qmult_lt_compat_r; assumption.
    + rewrite Qmult_1_l. apply Qle_refl.
Qed.

Lemma index_in_range {A} (a : list A) (i : Z) :
  0 ≤ i < Z.of_nat (length a) → ∃ x, index a i = Some x ∧ x ∈ a.
Proof.
  intros [Hlo Hhi]. unfold index. rewrite decide_True by done.
  destruct (lookup_lt_is_Some_2 a (Z.to_nat i)) as [x Hx]; [lia|].
  exists x. split; [done|]. by eapply list_elem_of_lookup_2.
Qed.

(** A random index into a non-empty array selects a member. *)
Lemma random_member {A} (a : list A) (r : Q) :
  (0 <= r)%Q → (r < 1)%Q → a ≠ [] →
  ∃ x, index a (Math_floor (r * inject_Z (Z.of_nat (length a)))%Q) = Some x ∧ x ∈ a.
Proof.
  intros H0 H1 Ha. apply index_in_range, floor_scale_range; try done.
  destruct a; [done | simpl; lia].
Qed.

Lemma trimStart_blank s : blank s → trimStart s = [].
Proof.
  induction 1 as [|c s Hc _ IH]; [done|]. simpl. by rewrite Hc.
Qed.

Lemma trimStart_nil_blank s : trimStart s = [] → blank s.
Proof.
  induction s as [|c s IH]; [constructor|]. simpl.
  destruct (isWhiteSpace c) eqn:Hc; [|done].
  intros Hs. constructor; [done | by apply IH].
Qed.

Lemma trimStart_snoc_visible s c :
  isWhiteSpace c = false → trimStart (s ++ [c]) ≠ [].
Proof.
  intros Hc. induction s as [|d s IH]; simpl.
  - by rewrite Hc.
  - by destruct (isWhiteSpace d).
Qed.

Lemma trimStart_head s c s' :
  trimStart s = c :: s' → isWhiteSpace c = false.
Proof.
  induction s as [|d s IH]; [done|]. simpl.
  destruct (isWhiteSpace d) eqn:Hd; [done|]. by intros [= -> _].
Qed.

(** [!query.trim()] holds exactly for blank strings. *)
Lemma trim_falsy_iff_blank s : truthy (trim s) = false ↔ blank s.
Proof.
  unfold trim, trimEnd. split.
  - intros Ht. destruct (trimStart s) as [|c s'] eqn:Hs.
    + by apply trimStart_nil_blank.
    + pose proof (trimStart_head _ _ _ Hs) as Hc.
      rewrite reverse_cons in Ht.
      pose proof (trimStart_snoc_visible (reverse s') c Hc) as Hne.
      destruct (trimStart (reverse s' ++ [c])) as [|d t] using rev_ind; [done|].
      rewrite reverse_snoc in Ht. done.
  - intros Hb. by rewrite (trimStart_blank s Hb).
Qed.

Lemma trim_truthy_visible s : ¬ blank s → truthy (trim s) = true.
Proof.
  intros Hnb. destruct (truthy (trim s)) eqn:Ht; [done|].
  by apply trim_falsy_iff_blank in Ht.
Qed.

(** Whatever the comparator answers, sorting permutes the array. *)
Lemma insertLeft_perm {A} (cmp : A → A → Rand Q) element prefix rnd n :
  (insertLeft cmp element prefix rnd n).1 ≡ₚ element :: prefix.
Proof.
  revert n. induction prefix as [|tmp rest IH]; intros n; [done|].
  cbn [insertLeft]. unfold mbind, rand_bind, bind.
  destruct (cmp tmp element rnd n) as [order n1].
  destruct (Qlt_le_dec 0 order); [|done].
  specialize (IH n1).
  destruct (insertLeft cmp element rest rnd n1) as [rest' n2]. simpl in *.
  rewrite IH. apply Permutation_swap.
Qed.

Lemma sortFrom_perm {A} (cmp : A → A → Rand Q) prefix todo rnd n :
  (sortFrom cmp prefix todo rnd n).1 ≡ₚ prefix ++ todo.
Proof.
  revert prefix n. induction todo as [|element todo IH]; intros prefix n.
  - simpl. rewrite app_nil_r. apply reverse_Permutation.
  - cbn [sortFrom]. unfold mbind, rand_bind, bind.
    pose proof (insertLeft_perm cmp element prefix rnd n) as Hins.
    destruct (insertLeft cmp element prefix rnd n) as [prefix' n1].
    rewrite IH. simpl in Hins. rewrite Hins.
    simpl. apply Permutation_middle.
Qed.

Lemma Array_sort_perm {A} (cmp : A → A → Rand Q) a rnd n :
  (Array_sort cmp a rnd n).1 ≡ₚ a.
Proof. apply (sortFrom_perm cmp [] a). Qed.

End JsFacts.

(** ** Facts about the page model *)

Section HostFacts.
Context {State Closure : Type}.
Variable initial : State.
Variable callback : Closure → React.Env → State → option State.

Implicit Types (w : React.World State Closure) (s : State).

Lemma dispatch_one_timer handler w s s' d c :
  React.panel w = Some s → handler s = (s', [(d, c)]) →
  React.dispatch handler w =
    React.mkWorld (React.instance w) (Some s')
      (React.timers w ++ [React.mkTimer (React.instance w) d c]).
Proof. intros Hp Hh. unfold React.dispatch. by rewrite Hp, Hh. Qed.

Lemma dispatch_no_timer handler w s s' :
  React.panel w = Some s → handler s = (s', []) →
  React.dispatch handler w =
    React.mkWorld (React.instance w) (Some s') (React.timers w).
Proof.
  intros Hp Hh. unfold React.dispatch. rewrite Hp, Hh. simpl.
  by rewrite app_nil_r.
Qed.

Lemma last_timer (ts : list (React.Timer Closure)) t :
  (ts ++ [t]) !! pred (length (ts ++ [t])) = Some t
  ∧ delete (pred (length (ts ++ [t]))) (ts ++ [t]) = ts.
Proof.
  rewrite length_app. simpl.
  replace (pred (length ts + 1)) with (length ts) by lia.
  split; [apply list_lookup_middle; done|].
  rewrite delete_middle. apply app_nil_r.
Qed.

(** A wait that settles while its instance is mounted runs the
    callback on the state the handler left. *)
Lemma settle_dispatch handler env w s s' d c :
  React.panel w = Some s → handler s = (s', [(d, c)]) →
  React.settle callback env (React.dispatch handler w) =
    React.mkWorld (React.instance w)
      (Some (default s' (callback c env s'))) (React.timers w).
Proof.
  intros Hp Hh. rewrite (dispatch_one_timer _ _ _ _ _ _ Hp Hh).
  unfold React.settle, React.fire. cbn [React.timers React.panel React.instance].
  destruct (last_timer (React.timers w) (React.mkTimer (React.instance w) d c))
    as [-> ->].
  cbn [React.owner React.closure]. rewrite decide_True by done.
  by destruct (callback c env s').
Qed.

(** Tearing the instance down leaves the wait in the queue; the
    callback then runs for nobody, also when a new instance has been
    mounted in the meantime. *)
Lemma teardown_keeps_wait handler env w s s' d c :
  React.panel w = Some s → handler s = (s', [(d, c)]) →
  let torn := React.unmount (React.dispatch handler w) in
  React.timers torn = React.timers w ++ [React.mkTimer (React.instance w) d c]
  ∧ React.settle callback env torn =
      React.mkWorld (React.instance w) None (React.timers w)
  ∧ React.settle callback env (React.mount initial torn) =
      React.mkWorld (S (React.instance w)) (Some initial) (React.timers w).
Proof.
  intros Hp Hh torn. subst torn.
  rewrite (dispatch_one_timer _ _ _ _ _ _ Hp Hh).
  unfold React.settle, React.fire, React.mount, React.unmount.
  cbn [React.timers React.panel React.instance].
  destruct (last_timer (React.timers w) (React.mkTimer (React.instance w) d c))
    as [-> ->].
  cbn [React.owner]. split; [done|]. split; [done|].
  rewrite decide_False by lia. done.
Qed.

Lemma dispatch_panel handler w :
  React.panel (React.dispatch handler w) = (λ s, (handler s).1) <$> React.panel w.
Proof.
  unfold React.dispatch. destruct (React.panel w) as [s|] eqn:Hp; cbn;
    [|by rewrite Hp].
  by destruct (handler s).
Qed.

Lemma dispatch_timers handler w :
  React.timers (React.dispatch handler w) =
    React.timers w ++
      match React.panel w with
      | Some s => (λ t, React.mkTimer (React.instance w) t.1 t.2) <$> (handler s).2
      | None => []
      end.
Proof.
  unfold React.dispatch. destruct (React.panel w) as [s|]; cbn;
    [|by rewrite app_nil_r].
  by destruct (handler s).
Qed.

(** An expiry only removes a timer. *)
Lemma fire_timers i env w :
  React.timers (React.fire callback i env w) ⊆ React.timers w.
Proof.
  unfold React.fire. destruct (React.timers w !! i) as [t|]; [|done].
  assert (delete i (React.timers w) ⊆ React.timers w)
    by apply list_subseteq_delete.
  destruct (React.panel w) as [s|]; [|done].
  destruct (decide _); [|done]. by destruct (callback _ env s).
Qed.

(** An expiry leaves the state alone or applies the callback of a timer
    of the mounted instance. *)
Lemma fire_panel i env w s' :
  React.panel (React.fire callback i env w) = Some s' →
  ∃ s, React.panel w = Some s
    ∧ (s' = s ∨ ∃ t, t ∈ React.timers w ∧ React.owner t = React.instance w
                     ∧ callback (React.closure t) env s = Some s').
Proof.
  unfold React.fire. destruct (React.timers w !! i) as [t|] eqn:Ht.
  - destruct (React.panel w) as [s|]; [|done]. intros Hp. exists s. split; [done|].
    destruct (decide (React.owner t = React.instance w)) as [Ho|].
    + destruct (callback (React.closure t) env s) as [s1|] eqn:Hc;
        simpl in Hp; injection Hp as <-; [|by left].
      right. exists t. split; [by eapply list_elem_of_lookup_2|done].
    + simpl in Hp. injection Hp as <-. by left.
  - intros Hp. exists s'. split; [done|by left].
Qed.

End HostFacts.

(** ** The research panel *)

Section ResearchFacts.
Import Research.

Lemma mock_ids : id <$> mockResearchResults = [1; 2; 3; 4; 5].
Proof. reflexivity. Qed.

Lemma performSearch_blank s :
  blank (query s) → performSearch s = (s, []).
Proof.
  intros Hb. unfold performSearch.
  by rewrite (proj2 (trim_falsy_iff_blank _) Hb).
Qed.

Lemma performSearch_visible s :
  ¬ blank (query s) →
  performSearch s = (setResults [] (setIsSearching true s), [(1500%Q, SearchDone)]).
Proof.
  intros Hb. unfold performSearch. by rewrite (trim_truthy_visible _ Hb).
Qed.

(** The list computed by the timer callback, for draws in [0, 1). *)
Lemma shuffled_spec rnd :
  unitDraws rnd →
  let rs := run shuffled rnd in
  (3 ≤ length rs ≤ 5)%nat ∧ rs ⊆ mockResearchResults ∧ NoDup (id <$> rs).
Proof.
  intros Hrnd. unfold run, shuffled, mbind, rand_bind, bind, mret, rand_ret, ret.
  pose proof (Array_sort_perm randomOrder mockResearchResults rnd 0%nat) as Hperm.
  destruct (Array_sort randomOrder mockResearchResults rnd 0%nat) as [sorted n].
  cbn [fst snd Math_random] in *.
  destruct (Hrnd n) as [H0 H1].
  pose proof (floor_scale_range (rnd n) 3 H0 H1 ltac:(lia)) as Hk.
  change (inject_Z 3) with 3%Q in Hk.
  set (k := Math_floor (rnd n * 3)%Q) in *.
  assert (Hlen : length sorted = 5%nat)
    by (rewrite (Permutation_length Hperm); reflexivity).
  unfold slice0. rewrite Hlen, decide_False by lia.
  replace (Z.to_nat (Z.min (3 + k) (Z.of_nat 5))) with (Z.to_nat (3 + k)) by lia.
  split; [|split].
  - rewrite length_take, Hlen. lia.
  - rewrite <- Hperm. apply subseteq_take.
  - rewrite fmap_take. eapply sublist_NoDup; [|apply sublist_take].
    rewrite Hperm, mock_ids. compute_done.
Qed.

End ResearchFacts.

Section ResearchClaims.
Import Research.

(** C4. Triggering a search while the query is empty or consists of
    white space only changes nothing: the panel state (so [isSearching]
    and the result set) and the timer queue are what they were, and the
    SEARCH button is disabled. *)
Theorem blank_query_search_is_noop (w : World) (s : State) :
  React.panel w = Some s → blank (query s) →
  React.dispatch performSearch w = w ∧ searchDisabled s = true.
Proof.
  intros Hp Hb. split.
  - rewrite (dispatch_no_timer _ _ _ _ Hp (performSearch_blank s Hb)).
    destruct w; simpl in *; by subst.
  - unfold searchDisabled.
    rewrite (proj2 (trim_falsy_iff_blank _) Hb). apply orb_true_r.
Qed.

Lemma blank_query_search_is_noop_witness :
  let w := Sample.typed [32; 9; 160; 12288]%N in
  React.dispatch performSearch w = w
  ∧ searchDisabled (mkState [32; 9; 160; 12288]%N false [] None) = true.
Proof.
  apply (blank_query_search_is_noop
           (Sample.typed [32; 9; 160; 12288]%N)
           (mkState [32; 9; 160; 12288]%N false [] None)).
  - reflexivity.
  - repeat constructor.
Defined.

(** C5. Whenever the callback of a search runs (with draws in [0, 1)),
    the result set it stores has between 3 and 5 members, all of them
    from the mock pool, and no id occurs twice. *)
Theorem settled_search_result_set (c : Closure) (env : React.Env) (s : State) :
  unitDraws (React.random env) →
  ∃ s', callback c env s = Some s'
    ∧ isSearching s' = false
    ∧ (3 ≤ length (results s') ≤ 5)%nat
    ∧ results s' ⊆ mockResearchResults
    ∧ NoDup (id <$> results s').
Proof.
  intros Hrnd. destruct c. eexists. split; [reflexivity|].
  split; [reflexivity|]. apply (shuffled_spec _ Hrnd).
Qed.

Lemma settled_search_result_set_witness :
  unitDraws Sample.draws
  ∧ ∃ s', callback SearchDone Sample.env initial = Some s'
    ∧ isSearching s' = false
    ∧ (3 ≤ length (results s') ≤ 5)%nat
    ∧ results s' ⊆ mockResearchResults
    ∧ NoDup (id <$> results s').
Proof.
  assert (H : unitDraws Sample.draws).
  { intros i. unfold Sample.draws. destruct (Nat.even i); split; reflexivity || discriminate. }
  split; [exact H|].
  apply (settled_search_result_set SearchDone Sample.env initial). exact H.
Defined.

(** C9. The query text decides whether a search starts, never what it
    returns: from the same panel, two searches with non-blank queries
    that see the same random draws settle with the same result set, the
    one computed from the draws alone. *)
Theorem results_ignore_query (w : World) (s : State) (q1 q2 : jsstring)
    (env : React.Env) :
  React.panel w = Some s → ¬ blank q1 → ¬ blank q2 →
  let search q :=
    settle env (React.dispatch performSearch
                  (React.dispatch (λ s, (setQuery q s, [])) w)) in
  results <$> React.panel (search q1) = Some (run shuffled (React.random env))
  ∧ results <$> React.panel (search q2) = results <$> React.panel (search q1).
Proof.
  intros Hp Hq1 Hq2 search.
  assert (Hs : ∀ q, ¬ blank q →
            results <$> React.panel (search q)
            = Some (run shuffled (React.random env))).
  { intros q Hq. subst search. cbv beta.
    rewrite (dispatch_no_timer (λ s, (setQuery q s, [])) w s (setQuery q s) Hp eq_refl).
    unfold settle.
    erewrite settle_dispatch;
      [| reflexivity | apply performSearch_visible; exact Hq].
    reflexivity. }
  by rewrite !Hs.
Qed.

Lemma results_ignore_query_witness :
  let search q :=
    settle Sample.env (React.dispatch performSearch
                  (React.dispatch (λ s, (setQuery q s, [])) (mount React.start))) in
  results <$> React.panel (search (str "neural networks"))
    = Some (run shuffled Sample.draws)
  ∧ results <$> React.panel (search (str "patents"))
    = results <$> React.panel (search (str "neural networks")).
Proof.
  apply (results_ignore_query (mount React.start) initial
           (str "neural networks") (str "patents") Sample.env).
  - reflexivity.
  - intros Hb. apply trim_falsy_iff_blank in Hb. vm_compute in Hb. discriminate.
  - intros Hb. apply trim_falsy_iff_blank in Hb. vm_compute in Hb. discriminate.
Defined.

(** C10. In every state the panel can reach, a search in flight
    ([isSearching] true) shows no results: [performSearch] empties the
    list in the same update that raises the flag, and the callback that
    stores results lowers it. *)
Theorem searching_hides_results (w : World) (s : State) :
  reachable w → React.panel w = Some s → isSearching s = true → results s = [].
Proof.
  intros Hreach. revert s. unfold reachable in Hreach.
  revert w Hreach.
  apply (rtc_ind_r (R := step)
           (λ w, ∀ s, React.panel w = Some s → isSearching s = true → results s = []));
    [done|].
  intros w1 w2 _ Hstep IH s Hp Hs.
  assert (Hsearch : ∀ w', w' = React.dispatch performSearch w1 →
            React.panel w' = Some s → results s = []).
  { intros w' -> Hp'. unfold React.dispatch in Hp'.
    destruct (React.panel w1) as [s1|] eqn:Hp1; [|congruence].
    unfold performSearch in Hp'.
    destruct (negb (truthy (trim (query s1)))); simpl in Hp'.
    - injection Hp' as <-. by apply (IH s1).
    - by injection Hp' as <-. }
  inversion Hstep as [w0 Hn | w0 | q w0 | w0 s0 Hp0 Hd | w0 | rid w0 | i env w0];
    subst.
  - injection Hp as <-. done.
  - done.
  - unfold React.dispatch in Hp.
    destruct (React.panel w1) as [s1|] eqn:Hp1; [|congruence].
    simpl in Hp. injection Hp as <-. by apply (IH s1).
  - by eapply Hsearch.
  - by eapply Hsearch.
  - unfold React.dispatch in Hp.
    destruct (React.panel w1) as [s1|] eqn:Hp1; [|congruence].
    simpl in Hp. injection Hp as <-. by apply (IH s1).
  - unfold fire, React.fire in Hp.
    destruct (React.timers w1 !! i) as [t|]; [|by apply IH].
    destruct (React.panel w1) as [s1|] eqn:Hp1; [|done].
    destruct (decide (React.owner t = React.instance w1)).
    + destruct (React.closure t). simpl in Hp. injection Hp as <-. done.
    + simpl in Hp. injection Hp as <-. by apply (IH s1).
Qed.

Lemma searching_is_reachable : reachable Sample.searching.
Proof.
  unfold reachable, Sample.searching, Sample.typed.
  eapply rtc_l; [apply step_mount; reflexivity|].
  eapply rtc_l; [apply (step_change (str "ai"))|].
  eapply rtc_l; [|apply rtc_refl].
  eapply step_click; reflexivity.
Qed.

Lemma searching_hides_results_witness :
  results (mkState (str "ai") true [] None) = [].
Proof.
  apply (searching_hides_results Sample.searching (mkState (str "ai") true [] None)).
  - exact searching_is_reachable.
  - reflexivity.
  - reflexivity.
Defined.

End ResearchClaims.

(** ** The idea panel *)

Section IdeaFacts.
Import Idea.

(** Every list of the Template Store has eight entries. *)
Lemma ideaTemplates_lists k l : ideaTemplates !! k = Some l → length l = 8%nat.
Proof.
  unfold ideaTemplates. intros H%elem_of_list_to_map_2.
  repeat (apply elem_of_cons in H; destruct H as [[= -> ->]|H]; [reflexivity|]).
  by apply elem_of_nil in H.
Qed.

Lemma ideaTemplates_keys k :
  is_Some (ideaTemplates !! k) ↔ k ∈ (cat_id <$> ideaCategories).
Proof.
  split.
  - intros [l H]. unfold ideaTemplates in H. apply elem_of_list_to_map_2 in H.
    repeat (apply elem_of_cons in H; destruct H as [[= -> ->]|H]; [compute_done|]).
    by apply elem_of_nil in H.
  - intros H.
    repeat (apply elem_of_cons in H; destruct H as [->|H]; [by eexists|]).
    by apply elem_of_nil in H.
Qed.

(** What the callback of [generateIdea] stores. *)
Lemma callback_spec k prompt l env s :
  ideaTemplates !! k = Some l → unitDraws (React.random env) →
  ∃ t, t ∈ l ∧
    callback (IdeaReady k prompt) env s =
      Some (setIsGenerating false
              (setIdeas (λ prev,
                 mkIdea (React.dateNow env)
                   (Some (if truthy prompt then customized (Some t) prompt else t))
                   k (React.newDate env) false :: prev) s)).
Proof.
  intros Hk Hrnd. unfold callback. rewrite Hk. cbn [mbind option_bind].
  destruct (Hrnd 0%nat) as [H0 H1].
  destruct (random_member l (React.random env 0%nat) H0 H1) as (t & Ht & Hin).
  { intros ->. by apply ideaTemplates_lists in Hk. }
  exists t. split; [done|]. unfold run, Math_random. cbn [fst].
  rewrite Ht. by destruct (truthy prompt).
Qed.

Lemma dispatch_categories handler (w : World) :
  categories_in_store w →
  (∀ s, is_Some (ideaTemplates !! selectedCategory s) →
        is_Some (ideaTemplates !! selectedCategory (handler s).1)
        ∧ ∀ d k p, (d, IdeaReady k p) ∈ (handler s).2 →
                   is_Some (ideaTemplates !! k)) →
  categories_in_store (React.dispatch handler w).
Proof.
  intros [Hs Ht] Hh. split.
  - intros s'. rewrite dispatch_panel.
    destruct (React.panel w) as [s|]; [|done]. intros [= <-].
    by apply Hh, Hs.
  - intros t k p. rewrite dispatch_timers.
    intros [Hin|Hin]%elem_of_app Hc; [by eapply Ht|].
    destruct (React.panel w) as [s|]; [|by apply elem_of_nil in Hin].
    apply list_elem_of_fmap in Hin as ([d c] & -> & Hin). simpl in Hc. subst c.
    destruct (Hh s) as [_ Hk]; [by apply Hs|]. by eapply Hk.
Qed.

Lemma callback_keeps_category c env s s' :
  callback c env s = Some s' → selectedCategory s' = selectedCategory s.
Proof.
  destruct c as [k p]. unfold callback.
  destruct (ideaTemplates !! k); [|done]. by intros [= <-].
Qed.

Lemma reachable_categories (w : World) : reachable w → categories_in_store w.
Proof.
  revert w.
  apply (rtc_ind_r (R := step) categories_in_store).
  { split; [done|]. by intros t k p Hin%elem_of_nil. }
  intros w1 w2 _ Hstep [Hs Ht].
  inversion Hstep as [w0 Hn | w0 | c w0 Hc | q w0 | env w0 s0 Hp0 Hg
                     | i w0 | i w0 | w0 s0 Hp0 Hne | i env w0]; subst.
  - split; [|done]. intros s [= <-]. by eexists.
  - split; [done|done].
  - apply dispatch_categories; [done|]. intros s _. split.
    + apply ideaTemplates_keys, list_elem_of_fmap. by exists c.
    + by intros d k p Hin%elem_of_nil.
  - apply dispatch_categories; [done|]. intros s Hk. split; [done|].
    by intros d k p Hin%elem_of_nil.
  - apply dispatch_categories; [done|]. intros s Hk. split; [done|].
    intros d k p Hin. apply list_elem_of_singleton in Hin.
    by injection Hin as _ -> _.
  - apply dispatch_categories; [done|]. intros s Hk. split; [done|].
    by intros d k p Hin%elem_of_nil.
  - apply dispatch_categories; [done|]. intros s Hk. split; [done|].
    by intros d k p Hin%elem_of_nil.
  - apply dispatch_categories; [done|]. intros s Hk. split; [done|].
    by intros d k p Hin%elem_of_nil.
  - split.
    + intros s' (s & Hp & [->|(t & _ & _ & Hc)])%fire_panel; [by apply Hs|].
      rewrite (callback_keeps_category _ _ _ _ Hc). by apply Hs.
    + intros t k p Hin. apply Ht. by eapply fire_timers.
Qed.

(** A [generateIdea] call and the expiry of its wait, end to end. *)
Lemma generateIdea_settles (w : World) (s : State) (l : list jsstring)
    (env env' : React.Env) :
  React.panel w = Some s →
  ideaTemplates !! selectedCategory s = Some l →
  unitDraws (React.random env') →
  ∃ s' idea t,
    React.panel (settle env' (React.dispatch (generateIdea env) w)) = Some s'
    ∧ ideas s' = idea :: ideas s
    ∧ t ∈ l
    ∧ text idea = Some (if truthy (customPrompt s)
                        then customized (Some t) (customPrompt s) else t)
    ∧ category idea = selectedCategory s.
Proof.
  intros Hp Hk Hrnd.
  unfold settle. erewrite settle_dispatch; [|exact Hp|reflexivity].
  destruct (callback_spec _ (customPrompt s) l env' (setIsGenerating true s) Hk Hrnd)
    as (t & Hin & ->).
  eexists _, _, t. cbn. repeat split; try reflexivity. exact Hin.
Qed.

(** The context typed into the idea panel is appended to the selected
    template by plain concatenation. *)
Lemma idea_context_is_appended (w : World) (s : State)
    (l : list jsstring) (env env' : React.Env) :
  React.panel w = Some s →
  ideaTemplates !! selectedCategory s = Some l →
  unitDraws (React.random env') →
  customPrompt s ≠ [] →
  ∃ s' idea t,
    React.panel (settle env' (React.dispatch (generateIdea env) w)) = Some s'
    ∧ ideas s' = idea :: ideas s
    ∧ t ∈ l
    ∧ text idea =
        Some (t ++ str " " ++ [8212%N] ++ str " customized for: "
                ++ quot ++ customPrompt s ++ quot).
Proof.
  intros Hp Hk Hrnd Hc.
  destruct (generateIdea_settles w s l env env' Hp Hk Hrnd)
    as (s' & idea & t & H1 & H2 & H3 & H4 & _).
  exists s', idea, t. repeat split; try done.
  rewrite H4. by destruct (customPrompt s).
Qed.

(** The scenario of the specification, code unit by code unit. *)
Lemma customized_for_students :
  customized (Some (str "A tool that X")) (str "for students") =
    [65; 32; 116; 111; 111; 108; 32; 116; 104; 97; 116; 32; 88; 32; 8212; 32;
     99; 117; 115; 116; 111; 109; 105; 122; 101; 100; 32; 102; 111; 114; 58;
     32; 34; 102; 111; 114; 32; 115; 116; 117; 100; 101; 110; 116; 115; 34]%N.
Proof. reflexivity. Qed.

End IdeaFacts.

Section IdeaClaims.
Import Idea.

(** C1. For every category key of the Template Store, the selection of
    a [generateIdea] call that settles is a member [t] of that
    category's list; the idea that is prepended carries [t] as its text,
    followed by the annotation of C3 when a context was typed.  The list
    of "tech" has exactly 8 entries, so repeated selections for "tech"
    only ever yield one of those 8 strings. *)
Theorem generated_idea_from_category (w : World) (s : State)
    (l : list jsstring) (env env' : React.Env) :
  React.panel w = Some s →
  ideaTemplates !! selectedCategory s = Some l →
  unitDraws (React.random env') →
  (∃ s' idea t,
      React.panel (settle env' (React.dispatch (generateIdea env) w)) = Some s'
      ∧ ideas s' = idea :: ideas s
      ∧ t ∈ l
      ∧ text idea = Some (if truthy (customPrompt s)
                          then customized (Some t) (customPrompt s) else t)
      ∧ category idea = selectedCategory s)
  ∧ length <$> ideaTemplates !! str "tech" = Some 8%nat.
Proof.
  intros Hp Hk Hrnd. split; [|reflexivity].
  by apply generateIdea_settles.
Qed.

Lemma generated_idea_from_category_witness :
  unitDraws Sample.draws
  ∧ (∃ s' idea t,
      React.panel (settle Sample.env
                     (React.dispatch (generateIdea Sample.env) Sample.ideaWithContext))
        = Some s'
      ∧ ideas s' = [idea]
      ∧ t ∈ default [] (ideaTemplates !! str "tech")
      ∧ text idea = Some (customized (Some t) (str "for students"))
      ∧ category idea = str "tech")
  ∧ length <$> ideaTemplates !! str "tech" = Some 8%nat.
Proof.
  assert (H : unitDraws Sample.draws).
  { intros i. unfold Sample.draws. destruct (Nat.even i); split; reflexivity || discriminate. }
  split; [exact H|].
  apply (generated_idea_from_category Sample.ideaWithContext
           (mkState (str "tech") [] false (str "for students"))
           (default [] (ideaTemplates !! str "tech")) Sample.env Sample.env).
  - reflexivity.
  - reflexivity.
  - exact H.
Defined.

(** The selection is a list entry; the text built from it is not one
    once a context is appended: with "for students" typed in, the text
    of the idea generated for "tech" is none of the 8 strings. *)
Lemma annotated_idea_not_in_list :
  ∃ s' idea t l,
    React.panel (settle Sample.env
                   (React.dispatch (generateIdea Sample.env) Sample.ideaWithContext))
      = Some s'
    ∧ ideas s' = [idea]
    ∧ text idea = Some t
    ∧ ideaTemplates !! str "tech" = Some l
    ∧ length l = 8%nat
    ∧ t ∉ l.
Proof.
  eexists _, _, _, _.
  split; [vm_compute; reflexivity|].
  split; [reflexivity|].
  split; [reflexivity|].
  split; [vm_compute; reflexivity|].
  split; [reflexivity|].
  compute_done.
Qed.

(** C6. Toggling the saved flag of an id twice gives back the log, and
    with it the whole state, as it was. *)
Theorem toggleSaved_involutive (i : Z) (s : State) :
  toggleSaved i (toggleSaved i s) = s.
Proof.
  destruct s as [c log g p]. unfold toggleSaved, setIdeas. cbn. f_equal.
  induction log as [|idea log IH]; [done|].
  cbn. rewrite IH. f_equal.
  destruct idea as [j t k ts sv]. cbn.
  destruct (decide (j = i)) as [->|Hne]; cbn.
  - rewrite decide_True by done. cbn. by rewrite negb_involutive.
  - by rewrite decide_False.
Qed.

(** C7. Prepending an entry and then deleting its id leaves no entry
    with that id, whatever the log held before; CLEAR_ALL empties the
    log from every state. *)
Theorem delete_after_append_and_clear (s : State) (e : GeneratedIdea) :
  (id e ∉ (id <$> ideas (deleteIdea (id e) (setIdeas (λ prev, e :: prev) s))))
  ∧ ideas (clearAll s) = [].
Proof.
  split; [|reflexivity].
  unfold deleteIdea, setIdeas. cbn [ideas].
  intros (idea & Heq & Hin)%list_elem_of_fmap.
  apply list_elem_of_filter in Hin as [Hne _]. congruence.
Qed.

End IdeaClaims.


(** ** The code panel *)

Section CodingFacts.
Import Coding.

(** Every language of the store has two snippets. *)
Lemma codeTemplates_lists k l : codeTemplates !! k = Some l → length l = 2%nat.
Proof.
  unfold codeTemplates. intros H%elem_of_list_to_map_2.
  repeat (apply elem_of_cons in H; destruct H as [[= -> ->]|H]; [reflexivity|]).
  by apply elem_of_nil in H.
Qed.

Lemma languageOptions_in_store l :
  l ∈ languageOptions → is_Some (codeTemplates !! lang_id l).
Proof.
  intros H.
  repeat (apply elem_of_cons in H; destruct H as [->|H]; [by eexists|]).
  by apply elem_of_nil in H.
Qed.

(** The language selector only ever holds a key of the store. *)
Lemma reachable_language (w : World) (s : State) :
  reachable w → React.panel w = Some s →
  is_Some (codeTemplates !! selectedLanguage s).
Proof.
  intros Hreach. revert s. revert w Hreach.
  apply (rtc_ind_r (R := step)
           (λ w, ∀ s, React.panel w = Some s →
                      is_Some (codeTemplates !! selectedLanguage s))); [done|].
  intros w1 w2 _ Hstep IH s Hp.
  inversion Hstep as [w0 Hn | w0 | l w0 Hl | p w0 | env w0 s0 Hp0 Hg
                     | w0 s0 Hp0 Hg | env render w0 Hcard | render w0 Hcard
                     | i env w0]; subst.
  - injection Hp as <-. by eexists.
  - done.
  - unfold React.dispatch in Hp.
    destruct (React.panel w1) as [s1|] eqn:Hp1; [|simpl in Hp; congruence].
    simpl in Hp. injection Hp as <-. by apply languageOptions_in_store.
  - unfold React.dispatch in Hp.
    destruct (React.panel w1) as [s1|] eqn:Hp1; [|simpl in Hp; congruence].
    simpl in Hp. injection Hp as <-. by apply (IH s1).
  - unfold React.dispatch in Hp. rewrite Hp0 in Hp, IH.
    simpl in Hp. injection Hp as <-. by apply (IH s0).
  - unfold React.dispatch, copyToClipboard, copyToClipboardOf in Hp.
    rewrite Hp0 in Hp, IH.
    destruct (generatedCode s0); simpl in Hp; injection Hp as <-;
      by apply (IH s0).
  - rewrite dispatch_panel in Hp.
    destruct (React.panel w1) as [s1|] eqn:Hp1; [|done].
    injection Hp as <-. by apply (IH s1).
  - rewrite dispatch_panel in Hp.
    destruct (React.panel w1) as [s1|] eqn:Hp1; [|done].
    injection Hp as <-. unfold copyToClipboardOf.
    destruct (generatedCode render); by apply (IH s1).
  - unfold fire, React.fire in Hp.
    destruct (React.timers w1 !! i) as [t|]; [|by apply IH].
    destruct (React.panel w1) as [s1|]; [|done].
    destruct (decide (React.owner t = React.instance w1)).
    + destruct (callback (React.closure t) env s1) as [s1'|] eqn:Hcb;
        simpl in Hp; injection Hp as <-; [|by apply (IH s1)].
      destruct (React.closure t) as [lang|]; simpl in Hcb.
      * destruct (codeTemplates !! lang); [|done]. simpl in Hcb.
        injection Hcb as <-. by apply (IH s1).
      * injection Hcb as <-. by apply (IH s1).
    + simpl in Hp. injection Hp as <-. by apply (IH s1).
Qed.

(** A [generateCode] call and the expiry of its wait, end to end: the
    cell holds the snippet drawn by this call, whatever it held before,
    and nothing of the context. *)
Lemma generateCode_settles (w : World) (s : State) (l : list CodeSnippet)
    (env env' : React.Env) :
  React.panel w = Some s →
  codeTemplates !! selectedLanguage s = Some l →
  unitDraws (React.random env') →
  ∃ c,
    index l (Math_floor (React.random env' 0%nat * inject_Z (Z.of_nat (length l)))%Q)
      = Some c
    ∧ c ∈ l
    ∧ settle env' (React.dispatch (generateCode env) w) =
        React.mkWorld (React.instance w)
          (Some (mkState (selectedLanguage s) (Some c) false (copied s) (customPrompt s)))
          (React.timers w).
Proof.
  intros Hp Hk Hrnd.
  unfold settle. erewrite settle_dispatch; [|exact Hp|reflexivity].
  unfold callback. cbn [selectedLanguage setGeneratedCode setIsGenerating].
  rewrite Hk. cbn [mbind option_bind].
  destruct (Hrnd 0%nat) as [H0 H1].
  destruct (random_member l (React.random env' 0%nat) H0 H1) as (c & Hc & Hin).
  { intros ->. by apply codeTemplates_lists in Hk. }
  exists c. split; [done|]. split; [done|]. unfold run, Math_random. cbn [fst].
  rewrite Hc. reflexivity.
Qed.

(** Nothing reads [customPrompt]: neither the closure that [generateCode]
    registers nor the callback depends on it. *)
Lemma context_never_read (p : jsstring) (c : Closure) (env : React.Env) (s : State) :
  (generateCode env (setCustomPrompt p s)).2 = (generateCode env s).2
  ∧ callback c env (setCustomPrompt p s) = setCustomPrompt p <$> callback c env s.
Proof.
  split; [reflexivity|]. destruct c as [lang|]; [|reflexivity].
  unfold callback. by destruct (codeTemplates !! lang).
Qed.

End CodingFacts.

Section CodingClaims.
Import Coding.

(** C8. The read model of the code panel never shows more than one
    snippet.  From every reachable state, two generate calls that settle
    one after the other leave exactly one snippet: the cell is emptied
    when the second call starts and then holds the snippet drawn by that
    call, a member of the list of the selected language. *)
Theorem regenerate_keeps_one_snippet (w : World) (s : State)
    (env1 env2 env3 env4 : React.Env) :
  reachable w → React.panel w = Some s →
  unitDraws (React.random env2) → unitDraws (React.random env4) →
  let w1 := settle env2 (React.dispatch (generateCode env1) w) in
  let regenerating := React.dispatch (generateCode env3) w1 in
  let w2 := settle env4 regenerating in
  (∀ s', (length (snippets s') ≤ 1)%nat)
  ∧ snippets <$> React.panel regenerating = Some []
  ∧ ∃ s2 c l,
      React.panel w2 = Some s2
      ∧ snippets s2 = [c]
      ∧ isGenerating s2 = false
      ∧ codeTemplates !! selectedLanguage s = Some l
      ∧ c ∈ l
      ∧ index l (Math_floor (React.random env4 0%nat * 2)%Q) = Some c.
Proof.
  intros Hreach Hp Hr2 Hr4 w1 regenerating w2.
  destruct (reachable_language w s Hreach Hp) as [l Hl].
  pose proof (codeTemplates_lists _ _ Hl) as Hlen.
  destruct (generateCode_settles w s l env1 env2 Hp Hl Hr2) as (c1 & _ & _ & Hw1).
  fold w1 in Hw1.
  assert (Hp1 : React.panel w1 = Some
            (mkState (selectedLanguage s) (Some c1) false (copied s) (customPrompt s)))
    by (by rewrite Hw1).
  destruct (generateCode_settles w1 _ l env3 env4 Hp1 Hl Hr4) as (c2 & Hi & Hin & Hw2).
  fold regenerating in Hw2. fold w2 in Hw2.
  split; [|split].
  - intros s'. unfold snippets. destruct (generatedCode s'); simpl; lia.
  - subst regenerating. unfold React.dispatch. by rewrite Hp1.
  - eexists _, c2, l. rewrite Hw2. cbn [React.panel].
    split; [reflexivity|]. split; [reflexivity|]. split; [reflexivity|].
    split; [done|]. split; [done|]. by rewrite Hlen in Hi.
Qed.

Lemma regenerate_keeps_one_snippet_witness :
  let w1 := settle Sample.env
              (React.dispatch (generateCode Sample.env) (mount React.start)) in
  let regenerating := React.dispatch (generateCode Sample.env) w1 in
  let w2 := settle Sample.env regenerating in
  (∀ s', (length (snippets s') ≤ 1)%nat)
  ∧ snippets <$> React.panel regenerating = Some []
  ∧ ∃ s2 c l,
      React.panel w2 = Some s2
      ∧ snippets s2 = [c]
      ∧ isGenerating s2 = false
      ∧ codeTemplates !! selectedLanguage initial = Some l
      ∧ c ∈ l
      ∧ index l (Math_floor (Sample.draws 0%nat * 2)%Q) = Some c.
Proof.
  assert (H : unitDraws Sample.draws).
  { intros i. unfold Sample.draws. destruct (Nat.even i); split; reflexivity || discriminate. }
  apply (regenerate_keeps_one_snippet (mount React.start) initial
           Sample.env Sample.env Sample.env Sample.env).
  - unfold reachable. eapply rtc_l; [apply step_mount; reflexivity|apply rtc_refl].
  - reflexivity.
  - exact H.
  - exact H.
Defined.

(** C3 at the code panel: with the context "for students" typed in,
    [generateCode] stores the template as it is in the store; the
    context appears nowhere in the snippet. *)
Lemma code_panel_ignores_context :
  React.panel (settle Sample.env
                 (React.dispatch (generateCode Sample.env) Sample.codeWithContext))
  = Some (mkState (str "react") (Some snippet1) false false (str "for students")).
Proof. vm_compute. reflexivity. Qed.

End CodingClaims.

(** ** Teardown *)

Section TeardownClaims.

(** C2 (as the code has it). No panel cancels its simulated-latency
    wait: after unmounting with a wait in flight the timer is still
    pending.  When it expires the callback runs for an instance that is
    gone, so no panel state is updated, neither when the panel stays
    unmounted nor when a fresh instance has been mounted meanwhile. *)
Theorem teardown_leaves_wait_pending
    (wr : Research.World) (sr : Research.State)
    (wi : Idea.World) (si : Idea.State)
    (wc : Coding.World) (sc : Coding.State) (env env' : React.Env) :
  React.panel wr = Some sr → ¬ blank (Research.query sr) →
  React.panel wi = Some si →
  React.panel wc = Some sc →
  (let torn := React.unmount (React.dispatch Research.performSearch wr) in
   React.timers torn =
     React.timers wr ++ [React.mkTimer (React.instance wr) 1500%Q Research.SearchDone]
   ∧ Research.settle env' torn =
       React.mkWorld (React.instance wr) None (React.timers wr)
   ∧ Research.settle env' (Research.mount torn) =
       React.mkWorld (S (React.instance wr)) (Some Research.initial) (React.timers wr))
  ∧ (let torn := React.unmount (React.dispatch (Idea.generateIdea env) wi) in
     React.timers torn =
       React.timers wi ++
         [React.mkTimer (React.instance wi)
            (Number_add 800 (Number_mul (React.random env 0%nat) 700))
            (Idea.IdeaReady (Idea.selectedCategory si) (Idea.customPrompt si))]
     ∧ Idea.settle env' torn =
         React.mkWorld (React.instance wi) None (React.timers wi)
     ∧ Idea.settle env' (Idea.mount torn) =
         React.mkWorld (S (React.instance wi)) (Some Idea.initial) (React.timers wi))
  ∧ (let torn := React.unmount (React.dispatch (Coding.generateCode env) wc) in
     React.timers torn =
       React.timers wc ++
         [React.mkTimer (React.instance wc)
            (Number_add 1000 (Number_mul (React.random env 0%nat) 500))
            (Coding.CodeReady (Coding.selectedLanguage sc))]
     ∧ Coding.settle env' torn =
         React.mkWorld (React.instance wc) None (React.timers wc)
     ∧ Coding.settle env' (Coding.mount torn) =
         React.mkWorld (S (React.instance wc)) (Some Coding.initial) (React.timers wc)).
Proof.
  intros Hr Hq Hi Hc. split; [|split].
  - eapply (teardown_keeps_wait Research.initial Research.callback);
      [exact Hr | by apply performSearch_visible].
  - eapply (teardown_keeps_wait Idea.initial Idea.callback);
      [exact Hi | reflexivity].
  - eapply (teardown_keeps_wait Coding.initial Coding.callback);
      [exact Hc | reflexivity].
Qed.

Lemma teardown_leaves_wait_pending_witness :
  let torn := React.unmount (React.dispatch Research.performSearch
                               (Sample.typed (str "ai"))) in
  React.timers torn = [React.mkTimer 1%nat 1500%Q Research.SearchDone]
  ∧ Research.settle Sample.env torn = React.mkWorld 1%nat None []
  ∧ Research.settle Sample.env (Research.mount torn) =
      React.mkWorld 2%nat (Some Research.initial) [].
Proof.
  refine (proj1 (teardown_leaves_wait_pending
                   (Sample.typed (str "ai"))
                   (Research.mkState (str "ai") false [] None)
                   (Idea.mount React.start) Idea.initial
                   (Coding.mount React.start) Coding.initial
                   Sample.env Sample.env _ _ _ _)).
  - reflexivity.
  - intros Hb. apply trim_falsy_iff_blank in Hb. vm_compute in Hb. discriminate.
  - reflexivity.
  - reflexivity.
Defined.

(** C2 as stated fails: the research panel is unmounted while a search
    is in flight, and its timer is still in the queue afterwards. *)
Lemma wait_survives_unmount :
  Research.isSearching <$> React.panel Sample.searching = Some true
  ∧ React.timers (React.unmount Sample.searching)
      = [React.mkTimer 1%nat 1500%Q Research.SearchDone]
  ∧ React.timers (React.unmount Sample.searching) ≠ [].
Proof.
  split; [reflexivity|]. split; [reflexivity|]. discriminate.
Qed.

End TeardownClaims.

(** * Further properties of the panels *)

(** ** Pending waits *)

Section WaitFacts.
Context {State Closure : Type}.
Variable initial : State.
Variable callback : Closure → React.Env → State → option State.

Implicit Types (w : React.World State Closure) (s : State) (P : Closure → bool).

Lemma filter_delete_length {A} (Q : A → Prop) `{∀ x, Decision (Q x)}
    (l : list A) (i : nat) (t : A) :
  l !! i = Some t →
  length (filter Q l) =
    (length (filter Q (delete i l)) + if decide (Q t) then 1 else 0)%nat.
Proof.
  revert i. induction l as [|x l IH]; intros [|i] Hi; try done.
  - injection Hi as ->. change (delete 0%nat (t :: l)) with l.
    rewrite filter_cons. destruct (decide (Q t)); cbn [length]; lia.
  - change (delete (S i) (x :: l)) with (x :: delete i l).
    rewrite !filter_cons. specialize (IH i Hi).
    destruct (decide (Q x)), (decide (Q t)); cbn [length] in *; lia.
Qed.

Lemma fire_instance i env w :
  React.instance (React.fire callback i env w) = React.instance w.
Proof.
  unfold React.fire. destruct (React.timers w !! i) as [t|]; [|done].
  destruct (React.panel w) as [s|]; [|done].
  destruct (decide _); [|done]. by destruct (callback _ env s).
Qed.

Lemma fire_timers_delete i env w t :
  React.timers w !! i = Some t →
  React.timers (React.fire callback i env w) = delete i (React.timers w).
Proof.
  unfold React.fire. intros ->.
  destruct (React.panel w) as [s|]; [|done].
  destruct (decide _); [|done]. by destruct (callback _ env s).
Qed.

Lemma fire_absent i env w :
  React.timers w !! i = None → React.fire callback i env w = w.
Proof. unfold React.fire. by intros ->. Qed.

(** What an expiry does to the live waits. *)
Lemma live_fire P i env w t :
  React.timers w !! i = Some t →
  length (Wait.live P w) =
    (length (Wait.live P (React.fire callback i env w))
     + if decide (React.owner t = React.instance w ∧ P (React.closure t) = true)
       then 1 else 0)%nat.
Proof.
  intros Ht. unfold Wait.live.
  rewrite fire_instance, (fire_timers_delete _ _ _ _ Ht).
  exact (filter_delete_length
           (λ t, React.owner t = React.instance w ∧ P (React.closure t) = true)
           _ _ _ Ht).
Qed.

Lemma live_mount P w : Wait.bounded w → Wait.live P (React.mount initial w) = [].
Proof.
  intros Hb. unfold Wait.live, React.mount. cbn [React.timers React.instance].
  unfold Wait.bounded in Hb. revert Hb.
  generalize (React.timers w). intros ts.
  induction ts as [|t ts IH]; intros Hb; [done|].
  rewrite filter_cons, decide_False.
  - apply IH. intros t' Hin. apply Hb. by right.
  - intros [Ho _]. specialize (Hb t ltac:(by left)). lia.
Qed.

Lemma live_dispatch_none P (f : State → State) w :
  Wait.live P (React.dispatch (λ s, (f s, [])) w) = Wait.live P w.
Proof.
  unfold Wait.live, React.dispatch. destruct (React.panel w); [|done].
  cbn. by rewrite app_nil_r.
Qed.

Lemma live_dispatch_one P handler w s s' d c :
  React.panel w = Some s → handler s = (s', [(d, c)]) →
  length (Wait.live P (React.dispatch handler w)) =
    (length (Wait.live P w) + if P c then 1 else 0)%nat.
Proof.
  intros Hp Hh. rewrite (dispatch_one_timer _ _ _ _ _ _ Hp Hh).
  unfold Wait.live. cbn [React.timers React.instance].
  rewrite filter_app, length_app, filter_cons, filter_nil. cbn.
  destruct (P c).
  - by rewrite decide_True.
  - rewrite decide_False; [done|]. by intros [_ ?].
Qed.

Lemma bounded_start : Wait.bounded (React.start (State := State) (Closure := Closure)).
Proof. by intros t Hin%elem_of_nil. Qed.

Lemma bounded_mount w : Wait.bounded w → Wait.bounded (React.mount initial w).
Proof. intros Hb t Hin. specialize (Hb t Hin). cbn. lia. Qed.

Lemma bounded_unmount w : Wait.bounded w → Wait.bounded (React.unmount w).
Proof. intros Hb t Hin. by apply Hb. Qed.

Lemma dispatch_instance handler w :
  React.instance (React.dispatch handler w) = React.instance w.
Proof.
  unfold React.dispatch. destruct (React.panel w) as [s|]; [|done].
  by destruct (handler s).
Qed.

Lemma bounded_dispatch handler w :
  Wait.bounded w → Wait.bounded (React.dispatch handler w).
Proof.
  intros Hb t. rewrite dispatch_timers, dispatch_instance.
  intros [Hin|Hin]%elem_of_app; [by apply Hb|].
  destruct (React.panel w) as [s|]; [|by apply elem_of_nil in Hin].
  by apply list_elem_of_fmap in Hin as (x & -> & _).
Qed.

Lemma bounded_fire i env w :
  Wait.bounded w → Wait.bounded (React.fire callback i env w).
Proof.
  intros Hb t Hin. rewrite fire_instance. by apply Hb, (fire_timers callback i env).
Qed.

End WaitFacts.

(** ** The idea panel, continued *)

Section IdeaWaitFacts.
Import Idea.

Lemma callback_ready k p l env s :
  ideaTemplates !! k = Some l →
  ∃ idea, callback (IdeaReady k p) env s =
            Some (setIsGenerating false (setIdeas (λ prev, idea :: prev) s)).
Proof. intros Hk. unfold callback. rewrite Hk. by eexists. Qed.

(** In every reachable world the generating flag counts the live waits. *)
Lemma idea_waits_inv (w : World) :
  reachable w →
  Wait.bounded w
  ∧ ∀ s, React.panel w = Some s →
         length (Wait.live IdeaWaits.any w) = if isGenerating s then 1%nat else 0%nat.
Proof.
  revert w.
  apply (rtc_ind_r (R := step)
           (λ w, Wait.bounded w
                 ∧ ∀ s, React.panel w = Some s →
                        length (Wait.live IdeaWaits.any w)
                        = if isGenerating s then 1%nat else 0%nat)).
  { split; [apply bounded_start|done]. }
  intros w1 w2 Hreach Hstep [Hb Hc].
  pose proof (reachable_categories w1 Hreach) as [_ Hcat].
  assert (Hpure : ∀ f : State → State,
            (∀ s, isGenerating (f s) = isGenerating s) →
            Wait.bounded (React.dispatch (λ s, (f s, [])) w1)
            ∧ ∀ s, React.panel (React.dispatch (λ s, (f s, [])) w1) = Some s →
                   length (Wait.live IdeaWaits.any (React.dispatch (λ s, (f s, [])) w1))
                   = if isGenerating s then 1%nat else 0%nat).
  { intros f Hf. split; [by apply bounded_dispatch|].
    intros s'. rewrite dispatch_panel, live_dispatch_none.
    destruct (React.panel w1) as [s1|] eqn:Hp1; [|done].
    intros [= <-]. cbn [fst]. rewrite Hf. by apply (Hc s1). }
  inversion Hstep as [w0 Hn | w0 | c w0 Hin | q w0 | env w0 s0 Hp0 Hg
                     | i w0 | i w0 | w0 s0 Hp0 Hne | i env w0]; subst.
  - split; [by apply bounded_mount|]. intros s [= <-].
    unfold mount. by rewrite live_mount.
  - split; [by apply bounded_unmount|done].
  - by apply (Hpure (setSelectedCategory (cat_id c))).
  - by apply (Hpure (setCustomPrompt q)).
  - split; [by apply bounded_dispatch|]. intros s'.
    rewrite dispatch_panel, Hp0. intros [= <-].
    rewrite (live_dispatch_one IdeaWaits.any (generateIdea env) w1 s0 _ _ _ Hp0 eq_refl).
    rewrite (Hc s0 Hp0), Hg. reflexivity.
  - by apply (Hpure (toggleSaved i)).
  - by apply (Hpure (deleteIdea i)).
  - by apply (Hpure clearAll).
  - split; [by apply bounded_fire|]. intros s' Hp.
    destruct (React.timers w1 !! i) as [t|] eqn:Ht;
      [|unfold fire in *; rewrite (fire_absent _ _ _ _ Ht) in *; by apply Hc].
    pose proof (live_fire callback IdeaWaits.any i env w1 t Ht) as Hlen.
    fold fire in Hlen.
    unfold fire at 1, React.fire in Hp. rewrite Ht in Hp.
    destruct (React.panel w1) as [s|] eqn:Hp1; [|done].
    specialize (Hc s eq_refl).
    destruct (decide (React.owner t = React.instance w1)) as [Ho|Ho].
    + rewrite decide_True in Hlen by done.
      destruct (React.closure t) as [k p] eqn:Hcl.
      destruct (Hcat t k p) as [l Hl]; [by eapply list_elem_of_lookup_2|done|].
      destruct (callback_ready k p l env s Hl) as [idea Hcb].
      rewrite Hcb in Hp. simpl in Hp. injection Hp as <-. cbn [isGenerating setIsGenerating].
      destruct (isGenerating s); lia.
    + rewrite decide_False in Hlen by (by intros [? _]).
      simpl in Hp. injection Hp as <-. lia.
Qed.

End IdeaWaitFacts.

Section IdeaMore.
Import Idea.

Lemma generating_is_reachable :
  reachable (React.dispatch (generateIdea Sample.env) (mount React.start)).
Proof.
  unfold reachable.
  eapply rtc_l; [apply step_mount; reflexivity|].
  eapply rtc_l; [|apply rtc_refl].
  eapply step_generate; reflexivity.
Qed.

(** X1. Idea generation never overlaps: in every reachable world the
    mounted panel has exactly one live wait while [isGenerating] is true
    and none while it is false, so the flag is never left raised without
    a callback that will lower it. *)
Theorem idea_generation_never_overlaps (w : World) (s : State) :
  reachable w → React.panel w = Some s →
  length (Wait.live IdeaWaits.any w) = if isGenerating s then 1%nat else 0%nat.
Proof. intros Hr Hp. by apply (idea_waits_inv w Hr). Qed.

Lemma idea_generation_never_overlaps_witness :
  length (Wait.live IdeaWaits.any
            (React.dispatch (generateIdea Sample.env) (mount React.start))) = 1%nat.
Proof.
  apply (idea_generation_never_overlaps
           (React.dispatch (generateIdea Sample.env) (mount React.start))
           (mkState (str "tech") [] true [])).
  - exact generating_is_reachable.
  - reflexivity.
Defined.

(** X2. The callback of [generateIdea] never throws in a reachable
    world: the selected category and the category captured by every
    pending callback are keys of [ideaTemplates], so every pending
    callback completes whatever the state and the draws. *)
Theorem idea_callbacks_never_throw (w : World) :
  reachable w →
  (∀ s, React.panel w = Some s → is_Some (ideaTemplates !! selectedCategory s))
  ∧ (∀ t env s, t ∈ React.timers w → is_Some (callback (React.closure t) env s)).
Proof.
  intros Hr. destruct (reachable_categories w Hr) as [Hs Ht]. split; [done|].
  intros t env s Hin. destruct (React.closure t) as [k p] eqn:Hc.
  destruct (Ht t k p Hin Hc) as [l Hl].
  destruct (callback_ready k p l env s Hl) as [idea ->]. by eexists.
Qed.

Lemma idea_callbacks_never_throw_witness :
  let w := React.dispatch (generateIdea Sample.env) (mount React.start) in
  (∀ s, React.panel w = Some s → is_Some (ideaTemplates !! selectedCategory s))
  ∧ (∀ t env s, t ∈ React.timers w → is_Some (callback (React.closure t) env s)).
Proof.
  apply (idea_callbacks_never_throw
           (React.dispatch (generateIdea Sample.env) (mount React.start))).
  exact generating_is_reachable.
Defined.

(** X3. An idea is generated from the category and the context of the
    moment the button was pressed: changing either while the wait is in
    flight changes the selector and the field, not the idea that
    arrives. *)
Theorem idea_uses_inputs_at_click (w : World) (s : State) (l : list jsstring)
    (env env' : React.Env) (c' p' : jsstring) :
  React.panel w = Some s →
  ideaTemplates !! selectedCategory s = Some l →
  unitDraws (React.random env') →
  let w1 := React.dispatch (generateIdea env) w in
  let w2 := React.dispatch (λ s, (setSelectedCategory c' s, [])) w1 in
  let w3 := React.dispatch (λ s, (setCustomPrompt p' s, [])) w2 in
  ∃ s' idea t,
    React.panel (settle env' w3) = Some s'
    ∧ selectedCategory s' = c' ∧ customPrompt s' = p'
    ∧ ideas s' = idea :: ideas s
    ∧ category idea = selectedCategory s
    ∧ t ∈ l
    ∧ text idea = Some (if truthy (customPrompt s)
                        then customized (Some t) (customPrompt s) else t).
Proof.
  intros Hp Hk Hrnd w1 w2 w3. subst w1 w2 w3.
  rewrite (dispatch_one_timer (generateIdea env) w s _ _ _ Hp eq_refl).
  erewrite (dispatch_no_timer (λ s, (setSelectedCategory c' s, [])));
    [|reflexivity|reflexivity].
  erewrite (dispatch_no_timer (λ s, (setCustomPrompt p' s, [])));
    [|reflexivity|reflexivity].
  unfold settle, React.settle, React.fire.
  cbn [React.timers React.panel React.instance].
  destruct (last_timer (React.timers w)
              (React.mkTimer (React.instance w)
                 (Number_add 800 (Number_mul (run Math_random (React.random env)) 700))
                 (IdeaReady (selectedCategory s) (customPrompt s)))) as [-> _].
  cbn [React.owner React.closure]. rewrite decide_True by done.
  destruct (callback_spec (selectedCategory s) (customPrompt s) l env'
              (setCustomPrompt p' (setSelectedCategory c' (setIsGenerating true s)))
              Hk Hrnd) as (t & Hin & ->).
  eexists _, _, t. cbn. repeat split; try reflexivity. exact Hin.
Qed.

Lemma idea_uses_inputs_at_click_witness :
  let w1 := React.dispatch (generateIdea Sample.env) Sample.ideaWithContext in
  let w2 := React.dispatch (λ s, (setSelectedCategory (str "science") s, [])) w1 in
  let w3 := React.dispatch (λ s, (setCustomPrompt (str "for teachers") s, [])) w2 in
  ∃ s' idea t,
    React.panel (settle Sample.env w3) = Some s'
    ∧ selectedCategory s' = str "science" ∧ customPrompt s' = str "for teachers"
    ∧ ideas s' = [idea]
    ∧ category idea = str "tech"
    ∧ t ∈ default [] (ideaTemplates !! str "tech")
    ∧ text idea = Some (customized (Some t) (str "for students")).
Proof.
  apply (idea_uses_inputs_at_click Sample.ideaWithContext
           (mkState (str "tech") [] false (str "for students"))
           (default [] (ideaTemplates !! str "tech")) Sample.env Sample.env
           (str "science") (str "for teachers")).
  - reflexivity.
  - reflexivity.
  - intros i. unfold Sample.env, Sample.draws. cbn [React.random].
    destruct (Nat.even i); split; reflexivity || discriminate.
Defined.

(** X4. Toggling or deleting an id that no entry of the log carries
    changes nothing. *)
Theorem absent_id_is_noop (i : Z) (s : State) :
  i ∉ (id <$> ideas s) → toggleSaved i s = s ∧ deleteIdea i s = s.
Proof.
  destruct s as [c log g p]. unfold toggleSaved, deleteIdea, setIdeas.
  cbn [ideas selectedCategory isGenerating customPrompt]. intros Hni.
  assert (Hall : Forall (λ idea, id idea ≠ i) log).
  { apply Forall_forall. intros idea Hin Heq. apply Hni.
    apply list_elem_of_fmap. by exists idea. }
  clear Hni. split; f_equal.
  - induction Hall as [|idea log Hne _ IH]; [done|].
    cbn [fmap list_fmap]. rewrite decide_False by done. f_equal. exact IH.
  - induction Hall as [|idea log Hne _ IH]; [done|].
    rewrite filter_cons, decide_True by done. f_equal. exact IH.
Qed.

Lemma absent_id_is_noop_witness :
  let s := mkState (str "tech")
             [mkIdea 7 (Some (str "a")) (str "tech") 7 true] false [] in
  toggleSaved 8 s = s ∧ deleteIdea 8 s = s.
Proof.
  apply (absent_id_is_noop 8
           (mkState (str "tech")
              [mkIdea 7 (Some (str "a")) (str "tech") 7 true] false [])).
  compute_done.
Defined.

(** X5. Deleting and toggling commute, for equal and for different
    ids; deleting is idempotent and deletions commute.  The order in
    which the user presses the row buttons does not matter for the
    resulting log. *)
Theorem row_actions_commute (i j : Z) (s : State) :
  deleteIdea i (toggleSaved j s) = toggleSaved j (deleteIdea i s)
  ∧ deleteIdea i (deleteIdea i s) = deleteIdea i s
  ∧ deleteIdea i (deleteIdea j s) = deleteIdea j (deleteIdea i s).
Proof.
  destruct s as [c log g p]. unfold toggleSaved, deleteIdea, setIdeas.
  cbn [ideas selectedCategory isGenerating customPrompt].
  split; [|split]; f_equal.
  - induction log as [|[a t k ts sv] log IH]; [done|].
    cbn [fmap list_fmap id]. rewrite !filter_cons. cbn [id].
    destruct (decide (a = j)); cbn [id];
      destruct (decide (a ≠ i)); cbn [fmap list_fmap id];
      rewrite ?decide_True by done; rewrite ?decide_False by done;
      by rewrite IH.
  - induction log as [|idea log IH]; [done|].
    rewrite !filter_cons. destruct (decide (id idea ≠ i)); [|done].
    rewrite filter_cons, decide_True by done. by rewrite IH.
  - induction log as [|idea log IH]; [done|].
    rewrite !filter_cons.
    destruct (decide (id idea ≠ i)), (decide (id idea ≠ j));
      rewrite ?filter_cons;
      rewrite ?decide_True by done; rewrite ?decide_False by done;
      by rewrite IH.
Qed.

End IdeaMore.

(** ** The research panel, continued *)

Section ResearchWaitFacts.
Import Research.

(** Whatever the draws are, the callback's list is a duplicate-free part
    of the pool. *)
Lemma shuffled_from_pool rnd :
  run shuffled rnd ⊆ mockResearchResults ∧ NoDup (id <$> run shuffled rnd).
Proof.
  unfold run, shuffled, mbind, rand_bind, bind, mret, rand_ret, ret.
  pose proof (Array_sort_perm randomOrder mockResearchResults rnd 0%nat) as Hperm.
  destruct (Array_sort randomOrder mockResearchResults rnd 0%nat) as [sorted n].
  cbn [fst snd Math_random] in *. unfold slice0. split.
  - rewrite <- Hperm. apply subseteq_take.
  - rewrite fmap_take. eapply sublist_NoDup; [|apply sublist_take].
    rewrite Hperm, mock_ids. compute_done.
Qed.

Lemma research_inv (w : World) :
  reachable w →
  Wait.bounded w
  ∧ ∀ s, React.panel w = Some s →
      (isSearching s = true → (1 ≤ length (Wait.live ResearchKeys.any w))%nat)
      ∧ results s ⊆ mockResearchResults
      ∧ NoDup (id <$> results s).
Proof.
  revert w.
  apply (rtc_ind_r (R := step)
           (λ w, Wait.bounded w
                 ∧ ∀ s, React.panel w = Some s →
                     (isSearching s = true →
                      (1 ≤ length (Wait.live ResearchKeys.any w))%nat)
                     ∧ results s ⊆ mockResearchResults
                     ∧ NoDup (id <$> results s))).
  { split; [apply bounded_start|done]. }
  intros w1 w2 _ Hstep [Hb Hc].
  assert (Hpure : ∀ f : State → State,
            (∀ s, isSearching (f s) = isSearching s ∧ results (f s) = results s) →
            Wait.bounded (React.dispatch (λ s, (f s, [])) w1)
            ∧ ∀ s, React.panel (React.dispatch (λ s, (f s, [])) w1) = Some s →
                (isSearching s = true →
                 (1 ≤ length (Wait.live ResearchKeys.any
                                (React.dispatch (λ s, (f s, [])) w1)))%nat)
                ∧ results s ⊆ mockResearchResults
                ∧ NoDup (id <$> results s)).
  { intros f Hf. split; [by apply bounded_dispatch|].
    intros s'. rewrite dispatch_panel, live_dispatch_none.
    destruct (React.panel w1) as [s1|] eqn:Hp1; [|done].
    intros [= <-]. cbn [fst]. destruct (Hf s1) as [-> ->]. by apply (Hc s1). }
  assert (Hsearch :
            Wait.bounded (React.dispatch performSearch w1)
            ∧ ∀ s, React.panel (React.dispatch performSearch w1) = Some s →
                (isSearching s = true →
                 (1 ≤ length (Wait.live ResearchKeys.any
                                (React.dispatch performSearch w1)))%nat)
                ∧ results s ⊆ mockResearchResults
                ∧ NoDup (id <$> results s)).
  { split; [by apply bounded_dispatch|]. intros s'.
    destruct (React.panel w1) as [s1|] eqn:Hp1;
      [|unfold React.dispatch; rewrite Hp1; congruence].
    destruct (decide (blank (query s1))) as [Hbl|Hbl].
    - rewrite (dispatch_no_timer _ _ _ _ Hp1 (performSearch_blank s1 Hbl)).
      cbn [React.panel]. intros [= <-].
      destruct (Hc s1 eq_refl) as (H1 & H2 & H3). split; [|done].
      intros Hs. specialize (H1 Hs). unfold Wait.live in *. exact H1.
    - rewrite dispatch_panel, Hp1. cbn [fmap option_fmap option_map].
      rewrite (performSearch_visible s1 Hbl). cbn [fst]. intros [= <-].
      rewrite (live_dispatch_one ResearchKeys.any performSearch w1 s1 _ _ _
                 Hp1 (performSearch_visible s1 Hbl)).
      cbn. split; [lia|]. split; [set_solver|constructor]. }
  inversion Hstep as [w0 Hn | w0 | q w0 | w0 s0 Hp0 Hd | w0 | rid w0 | i env w0];
    subst.
  - split; [by apply bounded_mount|]. intros s [= <-].
    cbn. split; [done|]. split; [set_solver|constructor].
  - split; [by apply bounded_unmount|done].
  - by apply (Hpure (setQuery q)).
  - exact Hsearch.
  - exact Hsearch.
  - by apply (Hpure (λ s, (toggleExpanded rid s).1)).
  - split; [by apply bounded_fire|]. intros s' Hp.
    destruct (React.timers w1 !! i) as [t|] eqn:Ht;
      [|unfold fire in *; rewrite (fire_absent _ _ _ _ Ht) in *; by apply Hc].
    pose proof (live_fire callback ResearchKeys.any i env w1 t Ht) as Hlen.
    fold fire in Hlen.
    unfold fire at 1, React.fire in Hp. rewrite Ht in Hp.
    destruct (React.panel w1) as [s|] eqn:Hp1; [|done].
    specialize (Hc s eq_refl). destruct Hc as (H1 & H2 & H3).
    destruct (decide (React.owner t = React.instance w1)) as [Ho|Ho].
    + destruct (React.closure t). simpl in Hp. injection Hp as <-.
      cbn [isSearching results setIsSearching setResults].
      split; [done|]. apply shuffled_from_pool.
    + rewrite decide_False in Hlen by (by intros [? _]).
      simpl in Hp. injection Hp as <-. split; [|done].
      intros Hs. specialize (H1 Hs). lia.
Qed.

End ResearchWaitFacts.

Section ResearchMore.
Import Research.

(** X6. In every state the research panel can reach, whatever the
    random draws were, the displayed results are members of the mock
    pool and no two of them share an id (the ids serve as row keys). *)
Theorem results_always_from_pool (w : World) (s : State) :
  reachable w → React.panel w = Some s →
  results s ⊆ mockResearchResults ∧ NoDup (id <$> results s).
Proof.
  intros Hr Hp. destruct (research_inv w Hr) as [_ Hinv].
  by destruct (Hinv s Hp) as (_ & ? & ?).
Qed.

Lemma results_always_from_pool_witness :
  run shuffled Sample.draws ⊆ mockResearchResults
  ∧ NoDup (id <$> run shuffled Sample.draws).
Proof.
  apply (results_always_from_pool (fire 0 Sample.env Sample.searching)
           (mkState (str "ai") false (run shuffled Sample.draws) None)).
  - unfold reachable, Sample.searching, Sample.typed.
    eapply rtc_l; [apply step_mount; reflexivity|].
    eapply rtc_l; [apply (step_change (str "ai"))|].
    eapply rtc_l; [eapply step_click; reflexivity|].
    eapply rtc_l; [apply (step_timer 0 Sample.env)|apply rtc_refl].
  - reflexivity.
Defined.

(** X7. The searching indicator cannot get stuck: in every reachable
    world, while [isSearching] is true a callback of the mounted
    instance is pending, and that callback lowers the flag. *)
Theorem searching_has_pending_wait (w : World) (s : State) :
  reachable w → React.panel w = Some s → isSearching s = true →
  (1 ≤ length (Wait.live ResearchKeys.any w))%nat
  ∧ ∀ t env s', t ∈ Wait.live ResearchKeys.any w →
      isSearching <$> callback (React.closure t) env s' = Some false.
Proof.
  intros Hr Hp Hs. destruct (research_inv w Hr) as [_ Hinv].
  split; [by apply (Hinv s Hp)|].
  intros t env s' _. by destruct (React.closure t).
Qed.

Lemma searching_has_pending_wait_witness :
  (1 ≤ length (Wait.live ResearchKeys.any Sample.searching))%nat
  ∧ ∀ t env s', t ∈ Wait.live ResearchKeys.any Sample.searching →
      isSearching <$> callback (React.closure t) env s' = Some false.
Proof.
  apply (searching_has_pending_wait Sample.searching
           (mkState (str "ai") true [] None)).
  - unfold reachable, Sample.searching, Sample.typed.
    eapply rtc_l; [apply step_mount; reflexivity|].
    eapply rtc_l; [apply (step_change (str "ai"))|].
    eapply rtc_l; [|apply rtc_refl].
    eapply step_click; reflexivity.
  - reflexivity.
  - reflexivity.
Defined.

(** X8. Enter is not gated by the searching flag.  After SEARCH, the
    button is disabled, yet Enter in the input starts a second wait.
    When the first expires the indicator goes off and results are shown
    while the second is still pending; when the second expires the
    results are replaced by a fresh draw. *)
Theorem enter_overlaps_search (w : World) (s : State) (env1 env2 : React.Env) :
  React.panel w = Some s → ¬ blank (query s) →
  let t := React.mkTimer (React.instance w) 1500%Q SearchDone in
  let n := length (React.timers w) in
  let w1 := React.dispatch performSearch w in
  let w2 := React.dispatch (ResearchKeys.handleKeyPress (str "Enter")) w1 in
  let w3 := fire n env1 w2 in
  let w4 := fire n env2 w3 in
  searchDisabled <$> React.panel w1 = Some true
  ∧ React.timers w2 = React.timers w ++ [t; t]
  ∧ w3 = React.mkWorld (React.instance w)
           (Some (mkState (query s) false (run shuffled (React.random env1))
                    (expandedResult s)))
           (React.timers w ++ [t])
  ∧ w4 = React.mkWorld (React.instance w)
           (Some (mkState (query s) false (run shuffled (React.random env2))
                    (expandedResult s)))
           (React.timers w).
Proof.
  intros Hp Hq t n w1 w2 w3 w4.
  assert (Hw1 : w1 = React.mkWorld (React.instance w)
                       (Some (mkState (query s) true [] (expandedResult s)))
                       (React.timers w ++ [t])).
  { subst w1. by rewrite (dispatch_one_timer _ _ _ _ _ _ Hp (performSearch_visible s Hq)). }
  assert (Hw2 : w2 = React.mkWorld (React.instance w)
                       (Some (mkState (query s) true [] (expandedResult s)))
                       (React.timers w ++ [t; t])).
  { subst w2. rewrite Hw1. unfold React.dispatch. cbn [React.panel].
    unfold ResearchKeys.handleKeyPress. rewrite decide_True by done.
    rewrite performSearch_visible by done.
    cbn. by rewrite <- app_assoc. }
  assert (Hw3 : w3 = React.mkWorld (React.instance w)
           (Some (mkState (query s) false (run shuffled (React.random env1))
                    (expandedResult s)))
           (React.timers w ++ [t])).
  { subst w3. rewrite Hw2. unfold fire, React.fire.
    cbn [React.timers React.panel React.instance]. subst n.
    rewrite list_lookup_middle by done. rewrite delete_middle.
    cbn [React.owner]. by rewrite decide_True. }
  split; [|split; [|split]].
  - rewrite Hw1. cbn [React.panel fmap option_fmap option_map].
    unfold searchDisabled. reflexivity.
  - by rewrite Hw2.
  - exact Hw3.
  - subst w4. rewrite Hw3. unfold fire, React.fire.
    cbn [React.timers React.panel React.instance]. subst n.
    rewrite list_lookup_middle by done. rewrite delete_middle, app_nil_r.
    cbn [React.owner]. by rewrite decide_True.
Qed.

Lemma enter_overlaps_search_witness :
  let w := Sample.typed (str "ai") in
  let t := React.mkTimer 1%nat 1500%Q SearchDone in
  let w1 := React.dispatch performSearch w in
  let w2 := React.dispatch (ResearchKeys.handleKeyPress (str "Enter")) w1 in
  let w3 := fire 0 Sample.env w2 in
  let w4 := fire 0 Sample.env w3 in
  searchDisabled <$> React.panel w1 = Some true
  ∧ React.timers w2 = [t; t]
  ∧ w3 = React.mkWorld 1%nat
           (Some (mkState (str "ai") false (run shuffled Sample.draws) None)) [t]
  ∧ w4 = React.mkWorld 1%nat
           (Some (mkState (str "ai") false (run shuffled Sample.draws) None)) [].
Proof.
  apply (enter_overlaps_search (Sample.typed (str "ai"))
           (mkState (str "ai") false [] None) Sample.env Sample.env).
  - reflexivity.
  - intros Hb. apply trim_falsy_iff_blank in Hb. vm_compute in Hb. discriminate.
Defined.

(** X9. The SEARCH button is enabled exactly when no search is in
    flight and the query has a character that is not white space, and
    pressing it then starts exactly one wait of 1500 ms, raises the
    flag and empties the list, leaving the query and the expanded row
    alone. *)
Theorem enabled_search_starts_one_wait (w : World) (s : State) :
  React.panel w = Some s →
  (searchDisabled s = false ↔ isSearching s = false ∧ ¬ blank (query s))
  ∧ (searchDisabled s = false →
     React.dispatch performSearch w =
       React.mkWorld (React.instance w)
         (Some (mkState (query s) true [] (expandedResult s)))
         (React.timers w ++ [React.mkTimer (React.instance w) 1500%Q SearchDone])).
Proof.
  intros Hp.
  assert (Hiff : searchDisabled s = false ↔ isSearching s = false ∧ ¬ blank (query s)).
  { unfold searchDisabled. rewrite orb_false_iff, negb_false_iff. split.
    - intros [Hs Ht]. split; [done|]. intros Hb%trim_falsy_iff_blank. congruence.
    - intros [Hs Hb]. split; [done|]. by apply trim_truthy_visible. }
  split; [exact Hiff|]. intros [_ Hq]%Hiff.
  by rewrite (dispatch_one_timer _ _ _ _ _ _ Hp (performSearch_visible s Hq)).
Qed.

Lemma enabled_search_starts_one_wait_witness :
  (searchDisabled (mkState (str "ai") false [] None) = false
   ↔ isSearching (mkState (str "ai") false [] None) = false
     ∧ ¬ blank (query (mkState (str "ai") false [] None)))
  ∧ (searchDisabled (mkState (str "ai") false [] None) = false →
     React.dispatch performSearch (Sample.typed (str "ai")) =
       React.mkWorld 1%nat (Some (mkState (str "ai") true [] None))
         [React.mkTimer 1%nat 1500%Q SearchDone]).
Proof.
  apply (enabled_search_starts_one_wait (Sample.typed (str "ai"))
           (mkState (str "ai") false [] None)).
  reflexivity.
Defined.

End ResearchMore.

(** ** The code panel, continued *)

Section CodingWaitFacts.
Import Coding.

Lemma index_member {A} (a : list A) (i : Z) (x : A) : index a i = Some x → x ∈ a.
Proof.
  unfold index. destruct (decide (0 ≤ i)); [|done].
  apply list_elem_of_lookup_2.
Qed.

Lemma codeReady_callback lang ts env s :
  codeTemplates !! lang = Some ts →
  ∃ randomCode,
    callback (CodeReady lang) env s =
      Some (setIsGenerating false (setGeneratedCode randomCode s))
    ∧ ∀ c, randomCode = Some c → c ∈ ts.
Proof.
  intros Hk. unfold callback. rewrite Hk. cbn [mbind option_bind].
  eexists. split; [reflexivity|]. intros c Hc. by eapply index_member.
Qed.

(** The invariant of the code panel: a raised flag has a live wait that
    will lower it, a snippet is held only when nothing is being
    generated, and it is a template of the store. *)
Lemma coding_inv (w : World) :
  reachable w →
  Wait.bounded w
  ∧ (∀ t lang, t ∈ React.timers w → React.closure t = CodeReady lang →
               is_Some (codeTemplates !! lang))
  ∧ ∀ s, React.panel w = Some s →
      (isGenerating s = true →
       (1 ≤ length (Wait.live CodingWaits.isCodeReady w))%nat)
      ∧ (copied s = true →
         (1 ≤ length (Wait.live CodingWaits.isCopiedReset w))%nat)
      ∧ (isGenerating s = true → generatedCode s = None)
      ∧ (∀ c, generatedCode s = Some c →
              ∃ k ts, codeTemplates !! k = Some ts ∧ c ∈ ts).
Proof.
  revert w.
  apply (rtc_ind_r (R := step)
    (λ w, Wait.bounded w
  ∧ (∀ t lang, t ∈ React.timers w → React.closure t = CodeReady lang →
               is_Some (codeTemplates !! lang))
  ∧ ∀ s, React.panel w = Some s →
      (isGenerating s = true →
       (1 ≤ length (Wait.live CodingWaits.isCodeReady w))%nat)
      ∧ (copied s = true →
         (1 ≤ length (Wait.live CodingWaits.isCopiedReset w))%nat)
      ∧ (isGenerating s = true → generatedCode s = None)
      ∧ (∀ c, generatedCode s = Some c →
              ∃ k ts, codeTemplates !! k = Some ts ∧ c ∈ ts))).
  { split; [apply bounded_start|]. split; [|done].
    by intros t lang Hin%elem_of_nil. }
  intros w1 w2 Hreach Hstep (Hb & Hl & Hc).
  assert (Hpure : ∀ f : State → State,
    (∀ s, isGenerating (f s) = isGenerating s ∧ copied (f s) = copied s
          ∧ generatedCode (f s) = generatedCode s) →
    let w' := React.dispatch (λ s, (f s, [])) w1 in
    Wait.bounded w'
  ∧ (∀ t lang, t ∈ React.timers w' → React.closure t = CodeReady lang →
               is_Some (codeTemplates !! lang))
  ∧ ∀ s, React.panel w' = Some s →
      (isGenerating s = true →
       (1 ≤ length (Wait.live CodingWaits.isCodeReady w'))%nat)
      ∧ (copied s = true →
         (1 ≤ length (Wait.live CodingWaits.isCopiedReset w'))%nat)
      ∧ (isGenerating s = true → generatedCode s = None)
      ∧ (∀ c, generatedCode s = Some c →
              ∃ k ts, codeTemplates !! k = Some ts ∧ c ∈ ts)).
  { intros f Hf w'. subst w'. split; [by apply bounded_dispatch|]. split.
    - intros t lang. rewrite dispatch_timers.
      destruct (React.panel w1); cbn; rewrite app_nil_r; apply Hl.
    - intros s'. rewrite dispatch_panel, !live_dispatch_none.
      destruct (React.panel w1) as [s1|] eqn:Hp1; [|done].
      intros [= <-]. cbn [fst]. destruct (Hf s1) as (-> & -> & ->).
      by apply (Hc s1). }
  (* a handler that registers one [CodeReady] wait, from any render *)
  assert (Hgen : ∀ handler d lang,
    is_Some (codeTemplates !! lang) →
    (∀ s, React.panel w1 = Some s →
          handler s = (setGeneratedCode None (setIsGenerating true s),
                       [(d, CodeReady lang)])) →
    let w' := React.dispatch handler w1 in
    Wait.bounded w'
  ∧ (∀ t lang, t ∈ React.timers w' → React.closure t = CodeReady lang →
               is_Some (codeTemplates !! lang))
  ∧ ∀ s, React.panel w' = Some s →
      (isGenerating s = true →
       (1 ≤ length (Wait.live CodingWaits.isCodeReady w'))%nat)
      ∧ (copied s = true →
         (1 ≤ length (Wait.live CodingWaits.isCopiedReset w'))%nat)
      ∧ (isGenerating s = true → generatedCode s = None)
      ∧ (∀ c, generatedCode s = Some c →
              ∃ k ts, codeTemplates !! k = Some ts ∧ c ∈ ts)).
  { intros handler d lang Hk Hh w'. subst w'.
    destruct (React.panel w1) as [s1|] eqn:Hp1;
      [|unfold React.dispatch; rewrite Hp1; split; [done|];
        split; [done|]; intros s'; by rewrite Hp1].
    destruct (Hc s1 eq_refl) as (H1 & H2 & H3 & H4).
    specialize (Hh s1 eq_refl).
    split; [by apply bounded_dispatch|]. split.
    - intros t lang'.
      rewrite (dispatch_one_timer handler w1 s1 _ _ _ Hp1 Hh).
      cbn [React.timers]. intros [Hin|Hin]%elem_of_app Hcl; [by eapply Hl|].
      apply list_elem_of_singleton in Hin. subst t. cbn in Hcl.
      by injection Hcl as <-.
    - intros s'. rewrite dispatch_panel, Hp1. cbn [fmap option_fmap option_map].
      rewrite Hh. cbn [fst]. intros [= <-].
      rewrite !(live_dispatch_one _ handler w1 s1 _ _ _ Hp1 Hh).
      cbn. split; [lia|]. split; [|done].
      intros Hcp. specialize (H2 Hcp). lia. }
  (* a handler that registers one [CopiedReset] wait *)
  assert (Hcopied : ∀ handler,
    (∀ s, React.panel w1 = Some s →
          handler s = (setCopied true s, [(2000%Q, CopiedReset)])) →
    let w' := React.dispatch handler w1 in
    Wait.bounded w'
  ∧ (∀ t lang, t ∈ React.timers w' → React.closure t = CodeReady lang →
               is_Some (codeTemplates !! lang))
  ∧ ∀ s, React.panel w' = Some s →
      (isGenerating s = true →
       (1 ≤ length (Wait.live CodingWaits.isCodeReady w'))%nat)
      ∧ (copied s = true →
         (1 ≤ length (Wait.live CodingWaits.isCopiedReset w'))%nat)
      ∧ (isGenerating s = true → generatedCode s = None)
      ∧ (∀ c, generatedCode s = Some c →
              ∃ k ts, codeTemplates !! k = Some ts ∧ c ∈ ts)).
  { intros handler Hh w'. subst w'.
    destruct (React.panel w1) as [s1|] eqn:Hp1;
      [|unfold React.dispatch; rewrite Hp1; split; [done|];
        split; [done|]; intros s'; by rewrite Hp1].
    destruct (Hc s1 eq_refl) as (H1 & H2 & H3 & H4).
    specialize (Hh s1 eq_refl).
    split; [by apply bounded_dispatch|]. split.
    - intros t lang. rewrite (dispatch_one_timer handler w1 s1 _ _ _ Hp1 Hh).
      cbn [React.timers]. intros [Hin|Hin]%elem_of_app Hcl; [by eapply Hl|].
      apply list_elem_of_singleton in Hin. by subst t.
    - intros s'. rewrite dispatch_panel, Hp1. cbn [fmap option_fmap option_map].
      rewrite Hh. cbn [fst]. intros [= <-].
      rewrite !(live_dispatch_one _ handler w1 s1 _ _ _ Hp1 Hh).
      cbn. split; [intros Hg; specialize (H1 Hg); lia|].
      split; [lia|]. split; done. }
  inversion Hstep as [w0 Hn | w0 | l w0 Hlang | p w0 | env w0 s0 Hp0 Hg
                     | w0 s0 Hp0 Hg | env render w0 Hcard | render w0 Hcard
                     | i env w0]; subst.
  - split; [by apply bounded_mount|]. split; [exact Hl|].
    intros s [= <-]. unfold mount. rewrite !live_mount by done.
    cbn. repeat split; done.
  - split; [by apply bounded_unmount|]. split; [exact Hl|done].
  - by apply (Hpure (setSelectedLanguage (lang_id l))).
  - by apply (Hpure (setCustomPrompt p)).
  - eapply (Hgen (generateCode env) _ (selectedLanguage s0));
      [by eapply reachable_language|].
    intros s Hs. rewrite Hp0 in Hs. by injection Hs as <-.
  - destruct (generatedCode s0) as [c0|] eqn:Hgc.
    + apply (Hcopied copyToClipboard).
      intros s Hs. rewrite Hp0 in Hs. injection Hs as <-.
      unfold copyToClipboard, copyToClipboardOf. by rewrite Hgc.
    + assert (Hcopy : copyToClipboard s0 = (s0, []))
        by (unfold copyToClipboard, copyToClipboardOf; by rewrite Hgc).
      rewrite (dispatch_no_timer copyToClipboard w1 s0 s0 Hp0 Hcopy).
      split; [done|]. split; [exact Hl|].
      cbn [React.panel]. intros s' [= <-]. by apply (Hc s0).
  - eapply (Hgen (generateCodeOf env render) _ (selectedLanguage render));
      [|done].
    destruct Hcard as (_ & (l & Hin & ->) & _). by apply languageOptions_in_store.
  - destruct Hcard as (_ & _ & (c & k & ts & Hgc & _)).
    apply (Hcopied (copyToClipboardOf render)).
    intros s _. unfold copyToClipboardOf. by rewrite Hgc.
  - split; [by apply bounded_fire|]. split.
    { intros t lang Hin. apply Hl. by eapply fire_timers. }
    intros s' Hp.
    destruct (React.timers w1 !! i) as [t|] eqn:Ht;
      [|unfold fire in *; rewrite (fire_absent _ _ _ _ Ht) in *; by apply Hc].
    pose proof (live_fire callback CodingWaits.isCodeReady i env w1 t Ht) as Hready.
    pose proof (live_fire callback CodingWaits.isCopiedReset i env w1 t Ht) as Hreset.
    fold fire in Hready, Hreset.
    unfold fire at 1, React.fire in Hp. rewrite Ht in Hp.
    destruct (React.panel w1) as [s|] eqn:Hp1; [|done].
    destruct (Hc s eq_refl) as (H1 & H2 & H3 & H4).
    destruct (decide (React.owner t = React.instance w1)) as [Ho|Ho].
    + destruct (React.closure t) as [lang|] eqn:Hcl.
      * destruct (Hl t lang) as [ts Hts]; [by eapply list_elem_of_lookup_2|done|].
        destruct (codeReady_callback lang ts env s Hts) as (rc & Hcb & Hrc).
        rewrite Hcb in Hp. simpl in Hp. injection Hp as <-.
        rewrite decide_False in Hreset by (by intros [_ ?]).
        cbn. split; [done|].
        split; [intros Hcp; specialize (H2 Hcp); lia|].
        split; [done|]. intros c ->. exists lang, ts. split; [done|by apply Hrc].
      * simpl in Hp. injection Hp as <-.
        rewrite decide_False in Hready by (by intros [_ ?]).
        cbn. split; [intros Hg; specialize (H1 Hg); lia|]. split; [done|].
        split; done.
    + rewrite decide_False in Hready by (by intros [? _]).
      rewrite decide_False in Hreset by (by intros [? _]).
      simpl in Hp. injection Hp as <-.
      split; [intros Hg; specialize (H1 Hg); lia|].
      split; [intros Hcp; specialize (H2 Hcp); lia|]. split; done.
Qed.

End CodingWaitFacts.

Section CodingMore.
Import Coding.

Lemma code_generating_is_reachable :
  reachable (React.dispatch (generateCode Sample.env) (mount React.start)).
Proof.
  unfold reachable.
  eapply rtc_l; [apply step_mount; reflexivity|].
  eapply rtc_l; [|apply rtc_refl].
  eapply step_generate; reflexivity.
Qed.

Lemma code_copied_is_reachable :
  reachable (React.dispatch copyToClipboard
               (settle Sample.env
                  (React.dispatch (generateCode Sample.env) (mount React.start)))).
Proof.
  unfold reachable.
  eapply rtc_l; [apply step_mount; reflexivity|].
  eapply rtc_l; [eapply (step_generate Sample.env); reflexivity|].
  eapply rtc_l; [apply (step_timer 0 Sample.env)|].
  eapply rtc_l; [|apply rtc_refl].
  eapply step_copy; reflexivity.
Qed.

(** A REGENERATE on the card that is leaving registers a second wait
    while the first is in flight. *)
Lemma regenerate_on_leaving_card_overlaps :
  let shown := settle Sample.env
                 (React.dispatch (generateCode Sample.env) (mount React.start)) in
  let w := React.dispatch
             (generateCodeOf Sample.env
                (mkState (str "react") (Some snippet1) false false []))
             (React.dispatch (generateCode Sample.env) shown) in
  reachable w
  ∧ isGenerating <$> React.panel w = Some true
  ∧ length (Wait.live CodingWaits.isCodeReady w) = 2%nat.
Proof.
  split; [|split; vm_compute; reflexivity].
  unfold reachable.
  eapply rtc_l; [apply step_mount; reflexivity|].
  eapply rtc_l; [eapply (step_generate Sample.env); reflexivity|].
  eapply rtc_l; [apply (step_timer 0 Sample.env)|].
  eapply rtc_l; [eapply (step_generate Sample.env); vm_compute; reflexivity|].
  eapply rtc_l; [|apply rtc_refl].
  apply step_card_regenerate. split; [reflexivity|]. split.
  - exists (mkLanguage (str "react") (str "REACT/TS") (str "<>")).
    split; [constructor|reflexivity].
  - exists snippet1, (str "react"), [snippet1; snippet2].
    split; [reflexivity|]. split; [vm_compute; reflexivity|constructor].
Qed.

(** X10. The generating indicator of the code panel cannot get stuck:
    in every reachable world, while [isGenerating] is true at least one
    [generateCode] callback of the mounted instance is pending, and
    every such callback completes and lowers the flag.  (There can be
    more than one: REGENERATE stays clickable on the leaving card.) *)
Theorem code_generating_has_pending_wait (w : World) (s : State) :
  reachable w → React.panel w = Some s → isGenerating s = true →
  (1 ≤ length (Wait.live CodingWaits.isCodeReady w))%nat
  ∧ ∀ t env s', t ∈ Wait.live CodingWaits.isCodeReady w →
      isGenerating <$> callback (React.closure t) env s' = Some false.
Proof.
  intros Hr Hp Hg. destruct (coding_inv w Hr) as (_ & Hl & Hinv).
  destruct (Hinv s Hp) as (H1 & _). split; [by apply H1|].
  intros t env s' [[_ Ht] Hin]%list_elem_of_filter.
  destruct (React.closure t) as [lang|] eqn:Hcl; [|done].
  destruct (Hl t lang Hin Hcl) as [ts Hts].
  destruct (codeReady_callback lang ts env s' Hts) as (rc & -> & _). done.
Qed.

Lemma code_generating_has_pending_wait_witness :
  let w := React.dispatch (generateCode Sample.env) (mount React.start) in
  (1 ≤ length (Wait.live CodingWaits.isCodeReady w))%nat
  ∧ ∀ t env s', t ∈ Wait.live CodingWaits.isCodeReady w →
      isGenerating <$> callback (React.closure t) env s' = Some false.
Proof.
  apply (code_generating_has_pending_wait
           (React.dispatch (generateCode Sample.env) (mount React.start))
           (mkState (str "react") None true false [])).
  - exact code_generating_is_reachable.
  - reflexivity.
  - reflexivity.
Defined.

(** X11. The COPIED acknowledgement always clears: in every reachable
    world, while [copied] is true a reset callback of the mounted
    instance is pending, and every such callback lowers the flag without
    touching the snippet. *)
Theorem copied_flag_always_clears (w : World) (s : State) :
  reachable w → React.panel w = Some s → copied s = true →
  (1 ≤ length (Wait.live CodingWaits.isCopiedReset w))%nat
  ∧ ∀ t env s', t ∈ Wait.live CodingWaits.isCopiedReset w →
      callback (React.closure t) env s' = Some (setCopied false s').
Proof.
  intros Hr Hp Hc. destruct (coding_inv w Hr) as (_ & _ & Hinv).
  destruct (Hinv s Hp) as (_ & H2 & _). split; [by apply H2|].
  intros t env s' [[_ Ht] _]%list_elem_of_filter.
  by destruct (React.closure t).
Qed.

Lemma copied_flag_always_clears_witness :
  let w := React.dispatch copyToClipboard
             (settle Sample.env
                (React.dispatch (generateCode Sample.env) (mount React.start))) in
  (1 ≤ length (Wait.live CodingWaits.isCopiedReset w))%nat
  ∧ ∀ t env s', t ∈ Wait.live CodingWaits.isCopiedReset w →
      callback (React.closure t) env s' = Some (setCopied false s').
Proof.
  apply (copied_flag_always_clears _
           (mkState (str "react") (Some snippet1) false true [])).
  - exact code_copied_is_reachable.
  - vm_compute. reflexivity.
  - reflexivity.
Defined.

(** X12. What the code panel shows is always an unmodified template of
    the store, and never while a generation is in flight: in every
    reachable world [isGenerating] implies an empty cell, and a snippet
    in the cell is a member of one of the lists of [codeTemplates]. *)
Theorem shown_snippet_is_store_template (w : World) (s : State) :
  reachable w → React.panel w = Some s →
  (isGenerating s = true → generatedCode s = None)
  ∧ (∀ c, generatedCode s = Some c →
          ∃ k ts, codeTemplates !! k = Some ts ∧ c ∈ ts).
Proof.
  intros Hr Hp. destruct (coding_inv w Hr) as (_ & _ & Hinv).
  by destruct (Hinv s Hp) as (_ & _ & ? & ?).
Qed.

Lemma shown_snippet_is_store_template_witness :
  let s := mkState (str "react") (Some snippet1) false true [] in
  (isGenerating s = true → generatedCode s = None)
  ∧ (∀ c, generatedCode s = Some c →
          ∃ k ts, codeTemplates !! k = Some ts ∧ c ∈ ts).
Proof.
  apply (shown_snippet_is_store_template
           (React.dispatch copyToClipboard
              (settle Sample.env
                 (React.dispatch (generateCode Sample.env) (mount React.start))))
           (mkState (str "react") (Some snippet1) false true [])).
  - exact code_copied_is_reachable.
  - vm_compute. reflexivity.
Defined.

(** X13. The COPY handler acts on the snippet of the render that built
    it.  Built by a render without a snippet it does nothing.  Built by
    a render (of a reachable state) that holds a snippet, it hands that
    snippet's code, which is the code of a store template, to the
    clipboard, raises [copied] and registers one wait of 2000 ms,
    whatever the state is when it is pressed (the cell may have been
    emptied by REGENERATE meanwhile); the expiry of that wait lowers the
    flag again and leaves everything else as it was. *)
Theorem copy_hands_over_template (w0 w : World) (render s : State)
    (env : React.Env) :
  reachable w0 → React.panel w0 = Some render → React.panel w = Some s →
  match generatedCode render with
  | None =>
      React.dispatch (copyToClipboardOf render) w = w
      ∧ CodingWaits.writeText render = None
  | Some c =>
      CodingWaits.writeText render = Some (code c)
      ∧ (∃ k ts, codeTemplates !! k = Some ts ∧ c ∈ ts)
      ∧ React.dispatch (copyToClipboardOf render) w =
          React.mkWorld (React.instance w) (Some (setCopied true s))
            (React.timers w ++ [React.mkTimer (React.instance w) 2000%Q CopiedReset])
      ∧ settle env (React.dispatch (copyToClipboardOf render) w) =
          React.mkWorld (React.instance w) (Some (setCopied false s)) (React.timers w)
  end.
Proof.
  intros Hr Hp0 Hp. destruct (coding_inv w0 Hr) as (_ & _ & Hinv).
  destruct (Hinv render Hp0) as (_ & _ & _ & H4).
  unfold CodingWaits.writeText.
  destruct (generatedCode render) as [c|] eqn:Hgc.
  - assert (Hcopy : copyToClipboardOf render s
                    = (setCopied true s, [(2000%Q, CopiedReset)]))
      by (unfold copyToClipboardOf; by rewrite Hgc).
    split; [done|]. split; [by apply H4|]. split.
    + by rewrite (dispatch_one_timer _ _ _ _ _ _ Hp Hcopy).
    + unfold settle. by rewrite (settle_dispatch callback _ env w s _ _ _ Hp Hcopy).
  - split; [|done].
    assert (Hcopy : copyToClipboardOf render s = (s, []))
      by (unfold copyToClipboardOf; by rewrite Hgc).
    rewrite (dispatch_no_timer _ _ _ _ Hp Hcopy).
    destruct w; simpl in *; by subst.
Qed.

Lemma copy_hands_over_template_witness :
  let shown := settle Sample.env
                 (React.dispatch (generateCode Sample.env) (mount React.start)) in
  let render := mkState (str "react") (Some snippet1) false false [] in
  let w := React.dispatch (generateCode Sample.env) shown in
  CodingWaits.writeText render = Some code1
  ∧ (∃ k ts, codeTemplates !! k = Some ts ∧ snippet1 ∈ ts)
  ∧ React.dispatch (copyToClipboardOf render) w =
      React.mkWorld 1%nat (Some (mkState (str "react") None true true []))
        (React.timers w ++ [React.mkTimer 1%nat 2000%Q CopiedReset])
  ∧ settle Sample.env (React.dispatch (copyToClipboardOf render) w) =
      React.mkWorld 1%nat (Some (mkState (str "react") None true false []))
        (React.timers w).
Proof.
  refine (copy_hands_over_template
            (settle Sample.env
               (React.dispatch (generateCode Sample.env) (mount React.start)))
            (React.dispatch (generateCode Sample.env)
               (settle Sample.env
                  (React.dispatch (generateCode Sample.env) (mount React.start))))
            (mkState (str "react") (Some snippet1) false false [])
            (mkState (str "react") None true false []) Sample.env _ _ _).
  - unfold reachable.
    eapply rtc_l; [apply step_mount; reflexivity|].
    eapply rtc_l; [eapply (step_generate Sample.env); reflexivity|].
    eapply rtc_l; [apply (step_timer 0 Sample.env)|apply rtc_refl].
  - vm_compute. reflexivity.
  - vm_compute. reflexivity.
Defined.

(** X14. A snippet is drawn from the language selected when the button
    was pressed: switching language while the wait is in flight changes
    the selector, and the snippet that arrives is still one of the
    earlier language. *)
Theorem code_uses_language_at_click (w : World) (s : State)
    (ts : list CodeSnippet) (env env' : React.Env) (l' : jsstring) :
  React.panel w = Some s →
  codeTemplates !! selectedLanguage s = Some ts →
  unitDraws (React.random env') →
  let w1 := React.dispatch (generateCode env) w in
  let w2 := React.dispatch (λ s, (setSelectedLanguage l' s, [])) w1 in
  ∃ c, c ∈ ts
    ∧ settle env' w2 =
        React.mkWorld (React.instance w)
          (Some (mkState l' (Some c) false (copied s) (customPrompt s)))
          (React.timers w).
Proof.
  intros Hp Hk Hrnd w1 w2. subst w1 w2.
  rewrite (dispatch_one_timer (generateCode env) w s _ _ _ Hp eq_refl).
  erewrite (dispatch_no_timer (λ s, (setSelectedLanguage l' s, [])));
    [|reflexivity|reflexivity].
  unfold settle, React.settle, React.fire.
  cbn [React.timers React.panel React.instance].
  destruct (last_timer (React.timers w)
              (React.mkTimer (React.instance w)
                 (Number_add 1000 (Number_mul (run Math_random (React.random env)) 500))
                 (CodeReady (selectedLanguage s)))) as [-> ->].
  cbn [React.owner React.closure]. rewrite decide_True by done.
  unfold callback. rewrite Hk. cbn [mbind option_bind].
  destruct (Hrnd 0%nat) as [H0 H1].
  destruct (random_member ts (React.random env' 0%nat) H0 H1) as (c & Hc & Hin).
  { intros ->. by apply codeTemplates_lists in Hk. }
  exists c. split; [done|]. unfold run, Math_random. cbn [fst].
  rewrite Hc. reflexivity.
Qed.

Lemma code_uses_language_at_click_witness :
  let w1 := React.dispatch (generateCode Sample.env) (mount React.start) in
  let w2 := React.dispatch (λ s, (setSelectedLanguage (str "python") s, [])) w1 in
  ∃ c, c ∈ default [] (codeTemplates !! str "react")
    ∧ settle Sample.env w2 =
        React.mkWorld 1%nat
          (Some (mkState (str "python") (Some c) false false [])) [].
Proof.
  apply (code_uses_language_at_click (mount React.start) initial
           (default [] (codeTemplates !! str "react")) Sample.env Sample.env
           (str "python")).
  - reflexivity.
  - reflexivity.
  - intros i. unfold Sample.env, Sample.draws. cbn [React.random].
    destruct (Nat.even i); split; reflexivity || discriminate.
Defined.

(** X15. A second COPY within the two seconds does not extend the
    acknowledgement: when the wait of the first COPY expires the flag is
    lowered although the wait of the second is still pending. *)
Theorem second_copy_is_cut_short (w : World) (s : State) (c : CodeSnippet)
    (env : React.Env) :
  React.panel w = Some s → generatedCode s = Some c →
  let t := React.mkTimer (React.instance w) 2000%Q CopiedReset in
  let w2 := React.dispatch copyToClipboard (React.dispatch copyToClipboard w) in
  React.panel w2 = Some (setCopied true s)
  ∧ React.timers w2 = React.timers w ++ [t; t]
  ∧ fire (length (React.timers w)) env w2 =
      React.mkWorld (React.instance w) (Some (setCopied false s))
        (React.timers w ++ [t]).
Proof.
  intros Hp Hgc t w2.
  assert (Hcopy : ∀ b, copyToClipboard (setCopied b s)
                       = (setCopied true s, [(2000%Q, CopiedReset)])).
  { intros b. unfold copyToClipboard, copyToClipboardOf. cbn. by rewrite Hgc. }
  assert (Hw2 : w2 = React.mkWorld (React.instance w) (Some (setCopied true s))
                       (React.timers w ++ [t; t])).
  { subst w2.
    assert (Hs : copyToClipboard s = (setCopied true s, [(2000%Q, CopiedReset)])).
    { unfold copyToClipboard, copyToClipboardOf. by rewrite Hgc. }
    rewrite (dispatch_one_timer copyToClipboard w s _ _ _ Hp Hs).
    unfold React.dispatch. cbn [React.panel]. rewrite (Hcopy true).
    cbn. by rewrite <- app_assoc. }
  rewrite Hw2. split; [done|]. split; [done|].
  unfold fire, React.fire. cbn [React.timers React.panel React.instance].
  rewrite list_lookup_middle by done. rewrite delete_middle.
  cbn [React.owner]. by rewrite decide_True.
Qed.

Lemma second_copy_is_cut_short_witness :
  let s := mkState (str "react") (Some snippet1) false false [] in
  let w := React.mkWorld 1%nat (Some s) [] in
  let t := React.mkTimer 1%nat 2000%Q CopiedReset in
  let w2 := React.dispatch copyToClipboard (React.dispatch copyToClipboard w) in
  React.panel w2 = Some (setCopied true s)
  ∧ React.timers w2 = [t; t]
  ∧ fire 0 Sample.env w2 = React.mkWorld 1%nat (Some (setCopied false s)) [t].
Proof.
  apply (second_copy_is_cut_short
           (React.mkWorld 1%nat
              (Some (mkState (str "react") (Some snippet1) false false [])) [])
           (mkState (str "react") (Some snippet1) false false []) snippet1
           Sample.env).
  - reflexivity.
  - reflexivity.
Defined.

End CodingMore.

(** ** Simulated latency *)

Section Latency.
Open Scope Q_scope.

Lemma pow2_pos (e : Z) : 0 < 2 ^ e.
Proof. apply Qpower_0_lt. reflexivity. Qed.

Lemma pow2_plus (a b : Z) : 2 ^ (a + b) == 2 ^ a * 2 ^ b.
Proof. apply Qpower_plus. discriminate. Qed.

Lemma pow2_le (a b : Z) : (a <= b)%Z → 2 ^ a <= 2 ^ b.
Proof. intros H. apply Qpower_le_compat_l; [exact H|discriminate]. Qed.

Lemma pow2_Z (n : Z) : (0 <= n)%Z → inject_Z (2 ^ n) == 2 ^ n.
Proof. intros H. apply (Zpower_Qpower 2 n H). Qed.

(** [binade x] is the exponent of the power of two at or below [x]. *)
Lemma binade_spec (x : Q) : 0 < x → 2 ^ binade x <= x ∧ x < 2 ^ (binade x + 1).
Proof.
  intros Hx. unfold binade.
  destruct x as [a b]. cbn [Qnum Qden].
  assert (Ha : (0 < a)%Z) by (unfold Qlt in Hx; simpl in Hx; lia).
  set (la := Z.log2 a). set (lb := Z.log2 (Z.pos b)).
  assert (Hla : (2 ^ la <= a < 2 ^ (la + 1))%Z).
  { subst la. pose proof (Z.log2_spec a Ha). rewrite <- Z.add_1_r in H. lia. }
  assert (Hlb : (2 ^ lb <= Z.pos b < 2 ^ (lb + 1))%Z).
  { subst lb. pose proof (Z.log2_spec (Z.pos b) ltac:(lia)). rewrite <- Z.add_1_r in H. lia. }
  assert (Hla0 : (0 <= la)%Z) by apply Z.log2_nonneg.
  assert (Hlb0 : (0 <= lb)%Z) by apply Z.log2_nonneg.
  (* x as a quotient of integers *)
  assert (Hq : a # b == inject_Z a / inject_Z (Z.pos b)) by apply Qmake_Qdiv.
  assert (Hbpos : 0 < inject_Z (Z.pos b)) by reflexivity.
  assert (Hup : a # b < 2 ^ (la - lb + 1)).
  { rewrite Hq. apply Qlt_shift_div_r; [exact Hbpos|].
    apply Qlt_le_trans with (inject_Z (2 ^ (la + 1))).
    - rewrite <- Zlt_Qlt. lia.
    - rewrite pow2_Z by lia.
      replace (la + 1)%Z with ((la - lb + 1) + lb)%Z by lia.
      rewrite pow2_plus. apply Qmult_le_l; [apply pow2_pos|].
      rewrite <- pow2_Z by lia. rewrite <- Zle_Qle. lia. }
  assert (Hlo : 2 ^ (la - lb - 1) < a # b).
  { rewrite Hq. apply Qlt_shift_div_l; [exact Hbpos|].
    apply Qlt_le_trans with (inject_Z (2 ^ la)).
    - rewrite pow2_Z by lia.
      replace la with ((la - lb - 1) + (lb + 1))%Z at 2 by lia.
      rewrite pow2_plus. apply Qmult_lt_l; [apply pow2_pos|].
      rewrite <- pow2_Z by lia. rewrite <- Zlt_Qlt. lia.
    - rewrite <- Zle_Qle. lia. }
  destruct (Qle_bool (2 ^ (la - lb)) (a # b)) eqn:Hb.
  - apply Qle_bool_iff in Hb. split; [exact Hb|exact Hup].
  - split; [by apply Qlt_le_weak|].
    replace (la - lb - 1 + 1)%Z with (la - lb)%Z by lia.
    apply Qnot_le_lt. intros Hc. apply Qle_bool_iff in Hc. congruence.
Qed.

Lemma binade_mono (x y : Q) : 0 < x → x <= y → (binade x <= binade y)%Z.
Proof.
  intros Hx Hxy.
  assert (Hy : 0 < y) by (eapply Qlt_le_trans; eassumption).
  destruct (binade_spec x Hx) as [Hx1 _]. destruct (binade_spec y Hy) as [_ Hy2].
  destruct (Z_le_gt_dec (binade x) (binade y)) as [|Hgt]; [done|].
  exfalso. apply (Qlt_irrefl y).
  eapply Qlt_le_trans; [exact Hy2|].
  eapply Qle_trans; [|exact Hxy]. eapply Qle_trans; [|exact Hx1].
  apply pow2_le. lia.
Qed.

Lemma roundEven_bounds (x : Q) :
  (Qfloor x <= roundEven x <= Qfloor x + 1)%Z.
Proof.
  unfold roundEven. destruct (x - inject_Z (Qfloor x) ?= 1 # 2);
    [destruct (Z.even (Qfloor x))|..]; lia.
Qed.

Lemma roundEven_Z (n : Z) : roundEven (inject_Z n) = n.
Proof.
  unfold roundEven. rewrite Qfloor_Z.
  assert (H : (inject_Z n - inject_Z n ?= 1 # 2) = Lt).
  { apply Qlt_alt. apply Qle_lt_trans with 0; [|reflexivity].
    apply Qle_minus_iff. ring_simplify. apply Qle_refl. }
  by rewrite H.
Qed.

Lemma roundEven_mono (x y : Q) : x <= y → (roundEven x <= roundEven y)%Z.
Proof.
  intros Hxy. pose proof (Qfloor_resp_le x y Hxy) as Hf.
  pose proof (roundEven_bounds x) as Hbx. pose proof (roundEven_bounds y) as Hby.
  destruct (Z.eq_dec (Qfloor x) (Qfloor y)) as [He|Hne]; [|lia].
  unfold roundEven. rewrite He.
  assert (Hd : x - inject_Z (Qfloor y) <= y - inject_Z (Qfloor y)).
  { apply Qplus_le_l with (z := inject_Z (Qfloor y)). ring_simplify. exact Hxy. }
  destruct (Qcompare_spec (x - inject_Z (Qfloor y)) (1 # 2));
    destruct (Qcompare_spec (y - inject_Z (Qfloor y)) (1 # 2));
    try (destruct (Z.even (Qfloor y))); try lia; exfalso; lra.
Qed.

Lemma ulp_pos (x : Q) : 0 < ulp x.
Proof. apply pow2_pos. Qed.

Lemma binary64_nonneg (x : Q) : 0 <= x → 0 <= binary64 x.
Proof.
  intros Hx. unfold binary64. destruct (Qcompare_spec 0 x) as [He|Hlt|Hgt].
  - apply Qle_refl.
  - apply Qmult_le_0_compat; [|apply Qlt_le_weak, ulp_pos].
    change 0 with (inject_Z 0). rewrite <- Zle_Qle.
    transitivity (Qfloor (x / ulp x)); [|apply roundEven_bounds].
    change 0%Z with (Qfloor 0). apply Qfloor_resp_le.
    apply Qle_shift_div_l; [apply ulp_pos|]. rewrite Qmult_0_l. exact Hx.
  - exfalso. lra.
Qed.

(** Rounding to binary64 is monotone on the non-negative rationals. *)
Lemma binary64_mono (x y : Q) : 0 <= x → x <= y → binary64 x <= binary64 y.
Proof.
  intros Hx Hxy.
  assert (Hy : 0 <= y) by lra.
  unfold binary64 at 1. destruct (Qcompare_spec 0 x) as [He|Hlt|Hgt];
    [by apply binary64_nonneg| |exfalso; lra].
  assert (Hylt : 0 < y) by lra.
  unfold binary64. destruct (Qcompare_spec 0 y) as [He|_|Hgt]; [exfalso; lra| |exfalso; lra].
  destruct (binade_spec x Hlt) as [Hx1 Hx2].
  destruct (binade_spec y Hylt) as [Hy1 Hy2].
  pose proof (binade_mono x y Hlt Hxy) as Hb.
  unfold ulp.
  set (ex := Z.max (binade x) (-1022)). set (ey := Z.max (binade y) (-1022)).
  assert (Hexy : (ex <= ey)%Z) by lia.
  destruct (Z.eq_dec ex ey) as [Heq|Hne].
  - rewrite Heq. apply Qmult_le_compat_r; [|apply Qlt_le_weak, pow2_pos].
    rewrite <- Zle_Qle. apply roundEven_mono.
    apply Qmult_le_compat_r; [exact Hxy|].
    apply Qlt_le_weak, Qinv_lt_0_compat, pow2_pos.
  - assert (Hey : ey = binade y) by lia.
    apply Qle_trans with (2 ^ (ex + 1)).
    + (* the rounded value of x stays within its binade *)
      replace (ex + 1)%Z with (53 + (ex - 52))%Z by lia.
      rewrite pow2_plus. apply Qmult_le_compat_r; [|apply Qlt_le_weak, pow2_pos].
      rewrite <- (pow2_Z 53) by lia. rewrite <- Zle_Qle.
      rewrite <- (roundEven_Z (2 ^ 53)). apply roundEven_mono.
      apply Qle_shift_div_r; [apply pow2_pos|].
      rewrite (pow2_Z 53) by lia. rewrite <- pow2_plus.
      replace (53 + (ex - 52))%Z with (ex + 1)%Z by lia.
      apply Qlt_le_weak. eapply Qlt_le_trans; [exact Hx2|]. apply pow2_le. lia.
    + apply Qle_trans with (2 ^ ey); [apply pow2_le; lia|].
      replace ey with (52 + (ey - 52))%Z at 1 by lia.
      rewrite pow2_plus. apply Qmult_le_compat_r; [|apply Qlt_le_weak, pow2_pos].
      rewrite <- (pow2_Z 52) by lia. rewrite <- Zle_Qle.
      rewrite <- (roundEven_Z (2 ^ 52)) at 1. apply roundEven_mono.
      apply Qle_shift_div_l; [apply pow2_pos|].
      rewrite (pow2_Z 52) by lia. rewrite <- pow2_plus.
      replace (52 + (ey - 52))%Z with (binade y) by lia. exact Hy1.
Qed.


Lemma binary64_between (lo hi x : Q) :
  0 <= lo → binary64 lo == lo → binary64 hi == hi →
  lo <= x → x <= hi → lo <= binary64 x ∧ binary64 x <= hi.
Proof.
  intros H0 Hlo Hhi H1 H2. split.
  - rewrite <- Hlo. by apply binary64_mono.
  - rewrite <- Hhi. apply binary64_mono; [lra|done].
Qed.

(** The number [base + r * span] for a draw [r] in [0, 1) and
    representable [base], [span], [base + span]. *)
Lemma scaled_draw_bounds (r base span : Q) :
  0 <= r → r < 1 → 0 <= base → 0 <= span →
  binary64 0 == 0 → binary64 span == span →
  binary64 base == base → binary64 (base + span) == base + span →
  base <= Number_add base (Number_mul r span)
  ∧ Number_add base (Number_mul r span) <= base + span.
Proof.
  intros H0 H1 Hb Hs F0 Fs Fb Fbs. unfold Number_add, Number_mul.
  assert (Hm : 0 <= binary64 (r * span) ∧ binary64 (r * span) <= span).
  { apply (binary64_between 0 span (r * span));
      [apply Qle_refl | exact F0 | exact Fs | |].
    - apply Qmult_le_0_compat; done.
    - rewrite <- (Qmult_1_l span) at 2. apply Qmult_le_compat_r; [lra|done]. }
  destruct Hm as [Hm0 Hm1].
  apply (binary64_between base (base + span) (base + binary64 (r * span)));
    [exact Hb | exact Fb | exact Fbs | lra | lra].
Qed.

(** X16. The simulated latency is bounded: for draws in [0, 1) the
    delay that [generateIdea] hands to [setTimeout] is at least 800 ms
    and at most 1500 ms, and the one of [generateCode] at least 1000 ms
    and at most 1500 ms.  The upper bound is reached: for the largest
    draw below 1 the sum rounds to exactly 1500. *)
Theorem simulated_latency_bounds (env : React.Env)
    (si : Idea.State) (sc : Coding.State) :
  unitDraws (React.random env) →
  (∀ d c, (d, c) ∈ (Idea.generateIdea env si).2 → 800 <= d ∧ d <= 1500)
  ∧ (∀ d c, (d, c) ∈ (Coding.generateCode env sc).2 → 1000 <= d ∧ d <= 1500)
  ∧ Number_add 800 (Number_mul (1 - (1 # 2) ^ 53) 700) == 1500
  ∧ Number_add 1000 (Number_mul (1 - (1 # 2) ^ 53) 500) == 1500.
Proof.
  intros Hrnd. destruct (Hrnd 0%nat) as [H0 H1].
  split; [|split; [|split; vm_compute; reflexivity]].
  - intros d c Hin. apply list_elem_of_singleton in Hin. injection Hin as -> _.
    apply (scaled_draw_bounds (React.random env 0%nat) 800 700 H0 H1);
      vm_compute; (reflexivity || discriminate).
  - intros d c Hin. apply list_elem_of_singleton in Hin. injection Hin as -> _.
    apply (scaled_draw_bounds (React.random env 0%nat) 1000 500 H0 H1);
      vm_compute; (reflexivity || discriminate).
Qed.

Lemma simulated_latency_bounds_witness :
  (∀ d c, (d, c) ∈ (Idea.generateIdea Sample.env Idea.initial).2 →
          800 <= d ∧ d <= 1500)
  ∧ (∀ d c, (d, c) ∈ (Coding.generateCode Sample.env Coding.initial).2 →
            1000 <= d ∧ d <= 1500)
  ∧ Number_add 800 (Number_mul (1 - (1 # 2) ^ 53) 700) == 1500
  ∧ Number_add 1000 (Number_mul (1 - (1 # 2) ^ 53) 500) == 1500.
Proof.
  apply (simulated_latency_bounds Sample.env Idea.initial Coding.initial).
  intros i. unfold Sample.env, Sample.draws. cbn [React.random].
  destruct (Nat.even i); split; reflexivity || discriminate.
Defined.

End Latency.
